(** * Aha!/Jira synchronizer: a shallow embedding of [Ahaj.py] and
    [Jira2AhaSync.py], and the properties claimed of them.

    The two scripts manipulate decoded JSON (dicts, lists, strings, numbers)
    and talk to two REST services.  JSON data is embedded as the inductive
    type [value]; Python exceptions as the type [exn] carried by [result];
    the calls to the services as a [world] of oracles together with a trace
    of the requests that were issued. *)

From Stdlib Require Import ZArith List String Ascii Bool Lia DecimalString.
Import ListNotations.

Set Warnings "-register-all".
Local Open Scope string_scope.
Local Open Scope Z_scope.

(* ===================================================================== *)
(** ** Python data *)
(* ===================================================================== *)

Module Py.

(** Decoded JSON.  A [dict] keeps its bindings in insertion order, as Python
    dicts do; keys are strings (JSON object keys); a lookup takes the first
    binding of a key.  JSON numbers are integers here: floats are not
    modelled.  Strings are byte strings (text in UTF-8): the operations
    that look at characters ([isdigit], [strip], [repr], indexing) are
    those of Python on ASCII text, and a byte above 127 is neither a digit
    nor white space. *)
Inductive value : Type :=
| VNone
| VBool (b : bool)
| VInt (z : Z)
| VStr (s : string)
| VList (l : list value)
| VDict (d : list (string * value)).

Definition dict : Type := list (string * value).

(** The exceptions the two scripts can meet.  All derive from [Exception],
    except [SystemExit], which [sys.exit] raises. *)
Inductive exn : Type :=
| AttributeError
| KeyError
| TypeError
| IndexError
| ValueError
| RequestException
| FileNotFoundError
| JSONDecodeError
| OSError
| SystemExit.

Definition exn_eqb (a b : exn) : bool :=
  match a, b with
  | AttributeError, AttributeError
  | KeyError, KeyError
  | TypeError, TypeError
  | IndexError, IndexError
  | ValueError, ValueError
  | RequestException, RequestException
  | FileNotFoundError, FileNotFoundError
  | JSONDecodeError, JSONDecodeError
  | OSError, OSError
  | SystemExit, SystemExit => true
  | _, _ => false
  end.

(** Outcome of evaluating Python code: a value, a raised exception, or
    [NoFuel] when a [while True] loop was cut by the model's fuel. *)
Inductive result (A : Type) : Type :=
| Ok (a : A)
| Raise (e : exn)
| NoFuel.
Arguments Ok {A} a.
Arguments Raise {A} e.
Arguments NoFuel {A}.

Definition rbind {A B} (r : result A) (k : A -> result B) : result B :=
  match r with
  | Ok a => k a
  | Raise e => Raise e
  | NoFuel => NoFuel
  end.

(** [try: body except (e1, e2, ...): handler] *)
Definition rcatch {A} (body : result A) (caught : exn -> bool)
           (handler : exn -> result A) : result A :=
  match body with
  | Raise e => if caught e then handler e else Raise e
  | r => r
  end.

Definition one_of (es : list exn) (e : exn) : bool := existsb (exn_eqb e) es.

(** *** Truthiness, [isinstance] *)

Definition truthy (v : value) : bool :=
  match v with
  | VNone => false
  | VBool b => b
  | VInt z => negb (z =? 0)
  | VStr s => negb (String.eqb s "")
  | VList l => match l with [] => false | _ => true end
  | VDict d => match d with [] => false | _ => true end
  end.

Definition is_dict (v : value) : bool :=
  match v with VDict _ => true | _ => false end.

(** *** Dictionaries *)

Fixpoint dict_lookup (k : string) (d : dict) : option value :=
  match d with
  | [] => None
  | (k', v) :: d' => if String.eqb k k' then Some v else dict_lookup k d'
  end.

(** [k in d] *)
Definition dict_contains (k : string) (d : dict) : bool :=
  match dict_lookup k d with Some _ => true | None => false end.

(** [d[k]] *)
Definition dict_getitem (d : dict) (k : string) : result value :=
  match dict_lookup k d with
  | Some v => Ok v
  | None => Raise KeyError
  end.

(** [d.get(k, default)] *)
Definition dict_get (d : dict) (k : string) (default : value) : value :=
  match dict_lookup k d with
  | Some v => v
  | None => default
  end.

(** [d[k] = v]: an existing key keeps its position, a new one is appended. *)
Fixpoint dict_set (d : dict) (k : string) (v : value) : dict :=
  match d with
  | [] => [(k, v)]
  | (k', v') :: d' =>
      if String.eqb k k' then (k, v) :: d' else (k', v') :: dict_set d' k v
  end.

(** [x.get(k, default)] on an arbitrary object: only dicts have [get]. *)
Definition py_get (x : value) (k : string) (default : value) : result value :=
  match x with
  | VDict d => Ok (dict_get d k default)
  | _ => Raise AttributeError
  end.

(** *** Lists *)

(** [l[i]] for an integer [i]: negative indices count from the end. *)
Definition list_getitem (l : list value) (i : Z) : result value :=
  let n := Z.of_nat (List.length l) in
  let j := if i <? 0 then i + n else i in
  if (0 <=? j) && (j <? n)
  then match nth_error l (Z.to_nat j) with
       | Some v => Ok v
       | None => Raise IndexError
       end
  else Raise IndexError.

(** *** Strings *)

(** [s.split(sep)] for a one-character separator: never the empty list. *)
Fixpoint split (sep : ascii) (s : string) : list string :=
  match s with
  | EmptyString => [EmptyString]
  | String c rest =>
      if Ascii.eqb c sep then EmptyString :: split sep rest
      else match split sep rest with
           | [] => [String c EmptyString]
           | h :: t => String c h :: t
           end
  end.

Definition digit_of (c : ascii) : option Z :=
  let n := Z.of_N (N_of_ascii c) in
  if (48 <=? n) && (n <=? 57) then Some (n - 48) else None.

Definition is_digit (c : ascii) : bool :=
  match digit_of c with Some _ => true | None => false end.

Fixpoint all_chars (p : ascii -> bool) (s : string) : bool :=
  match s with
  | EmptyString => true
  | String c rest => p c && all_chars p rest
  end.

(** [s.isdigit()]: at least one character, and all of them digits. *)
Definition isdigit (s : string) : bool :=
  match s with
  | EmptyString => false
  | _ => all_chars is_digit s
  end.

Fixpoint int_digits (acc : Z) (s : string) : result Z :=
  match s with
  | EmptyString => Ok acc
  | String c rest =>
      match digit_of c with
      | Some d => int_digits (10 * acc + d) rest
      | None => Raise ValueError
      end
  end.

(** [int(s)] on a string of digits (the only use the scripts make of it);
    anything else is a [ValueError]. *)
Definition py_int (s : string) : result Z :=
  match s with
  | EmptyString => Raise ValueError
  | _ => int_digits 0 s
  end.

(** [s.replace(a, b)] for one-character [a] and [b]. *)
Fixpoint replace_char (a b : ascii) (s : string) : string :=
  match s with
  | EmptyString => EmptyString
  | String c rest =>
      String (if Ascii.eqb c a then b else c) (replace_char a b rest)
  end.

(** [sep.join(parts)] *)
Fixpoint join (sep : string) (parts : list string) : string :=
  match parts with
  | [] => ""
  | [p] => p
  | p :: rest => p ++ sep ++ join sep rest
  end.

(** [c in s] for a character [c]. *)
Fixpoint str_contains (c : ascii) (s : string) : bool :=
  match s with
  | EmptyString => false
  | String c' rest => Ascii.eqb c c' || str_contains c rest
  end.

(** [s.strip() == ""]: every character is white space. *)
Definition is_space (c : ascii) : bool :=
  let n := Z.of_N (N_of_ascii c) in
  ((9 <=? n) && (n <=? 13)) || ((28 <=? n) && (n <=? 32)).

Definition blank (s : string) : bool := all_chars is_space s.

(** *** [str] and [repr], as f-strings apply them *)

Definition hex_digit (n : Z) : ascii :=
  ascii_of_N (Z.to_N (if n <? 10 then 48 + n else 87 + n)).

Definition printable (n : Z) : bool :=
  ((32 <=? n) && (n <? 127)) || (128 <=? n).

Definition repr_char (quote : ascii) (c : ascii) : string :=
  let n := Z.of_N (N_of_ascii c) in
  if Ascii.eqb c quote || (n =? 92) then String "\" (String c "")
  else if n =? 9 then "\t"
  else if n =? 10 then "\n"
  else if n =? 13 then "\r"
  else if printable n then String c ""
  else String "\" (String "x" (String (hex_digit (n / 16))
                                        (String (hex_digit (n mod 16)) ""))).

Fixpoint repr_chars (quote : ascii) (s : string) : string :=
  match s with
  | EmptyString => ""
  | String c rest => repr_char quote c ++ repr_chars quote rest
  end.

Definition double_quote : ascii := ascii_of_N 34.

(** [repr(s)] of a string: single quotes, unless the string has a single
    quote and no double quote. *)
Definition repr_str (s : string) : string :=
  let quote : ascii :=
    if str_contains "'" s && negb (str_contains double_quote s) then double_quote
    else "'"%char in
  String quote (repr_chars quote s ++ String quote "").

Definition str_of_int (z : Z) : string := NilZero.string_of_int (Z.to_int z).

Fixpoint repr (v : value) : string :=
  match v with
  | VNone => "None"
  | VBool true => "True"
  | VBool false => "False"
  | VInt z => str_of_int z
  | VStr s => repr_str s
  | VList l => "[" ++ join ", " (map repr l) ++ "]"
  | VDict d =>
      "{" ++ join ", " (map (fun kv => match kv with
                                       | (k, x) => repr_str k ++ ": " ++ repr x
                                       end) d) ++ "}"
  end.

(** [str(v)], which is what [f"{v}"] inserts. *)
Definition py_str (v : value) : string :=
  match v with
  | VStr s => s
  | _ => repr v
  end.

(** *** Equality, membership, subscripts, iteration *)

Definition num_of (v : value) : option Z :=
  match v with
  | VBool true => Some 1
  | VBool false => Some 0
  | VInt z => Some z
  | _ => None
  end.

(** [a == b]: booleans compare as the integers 0 and 1; dicts compare
    regardless of the order of their keys. *)
Fixpoint py_eq (a b : value) : bool :=
  match a with
  | VNone => match b with VNone => true | _ => false end
  | VBool _ | VInt _ =>
      match num_of a, num_of b with
      | Some x, Some y => x =? y
      | _, _ => false
      end
  | VStr s => match b with VStr t => String.eqb s t | _ => false end
  | VList l =>
      match b with
      | VList m =>
          (fix go (l : list value) (m : list value) {struct l} : bool :=
             match l, m with
             | [], [] => true
             | x :: l', y :: m' => py_eq x y && go l' m'
             | _, _ => false
             end) l m
      | _ => false
      end
  | VDict d =>
      match b with
      | VDict e =>
          (List.length d =? List.length e)%nat &&
          (fix go (d : list (string * value)) {struct d} : bool :=
             match d with
             | [] => true
             | (k, x) :: d' =>
                 match dict_lookup k e with
                 | Some y => py_eq x y && go d'
                 | None => false
                 end
             end) d
      | _ => false
      end
  end.

Definition hashable (v : value) : bool :=
  match v with
  | VList _ | VDict _ => false
  | _ => true
  end.

Fixpoint prefix_of (p s : string) : bool :=
  match p, s with
  | EmptyString, _ => true
  | String a p', String b s' => Ascii.eqb a b && prefix_of p' s'
  | _, _ => false
  end.

(** [p in s] for strings: [p] occurs as a substring. *)
Fixpoint substring_of (p s : string) : bool :=
  prefix_of p s ||
  match s with
  | EmptyString => false
  | String _ s' => substring_of p s'
  end.

(** [x in c] *)
Definition py_in (x c : value) : result bool :=
  match c with
  | VDict d =>
      match x with
      | VStr k => Ok (dict_contains k d)
      | _ => if hashable x then Ok false else Raise TypeError
      end
  | VList l => Ok (existsb (py_eq x) l)
  | VStr s =>
      match x with
      | VStr p => Ok (substring_of p s)
      | _ => Raise TypeError
      end
  | _ => Raise TypeError
  end.

Fixpoint chars_of (s : string) : list value :=
  match s with
  | EmptyString => []
  | String c rest => VStr (String c "") :: chars_of rest
  end.

(** [c[i]] *)
Definition py_getitem (c i : value) : result value :=
  match c with
  | VDict d =>
      match i with
      | VStr k => dict_getitem d k
      | _ => if hashable i then Raise KeyError else Raise TypeError
      end
  | VList l =>
      match num_of i with
      | Some n => list_getitem l n
      | None => Raise TypeError
      end
  | VStr s =>
      match num_of i with
      | Some n => list_getitem (chars_of s) n
      | None => Raise TypeError
      end
  | _ => Raise TypeError
  end.

(** The elements a [for] loop (or [list.extend]) draws from [c]: a dict
    gives its keys, a string its characters. *)
Definition py_iter (c : value) : result (list value) :=
  match c with
  | VList l => Ok l
  | VDict d => Ok (map (fun kv => VStr (fst kv)) d)
  | VStr s => Ok (chars_of s)
  | _ => Raise TypeError
  end.

(** [len(c)] *)
Definition py_len (c : value) : result Z :=
  match py_iter c with
  | Ok l => Ok (Z.of_nat (List.length l))
  | Raise e => Raise e
  | NoFuel => NoFuel
  end.

(** [v >= n] for an integer literal [n]: only numbers compare with it. *)
Definition py_ge (v : value) (n : Z) : result bool :=
  match num_of v with
  | Some z => Ok (n <=? z)
  | None => Raise TypeError
  end.

(** [d[k] = v] where the key [k] is itself a value.  Lists and dicts are
    unhashable.  The dicts built here are serialised with [json.dumps],
    which writes a scalar key as its JSON text; that text is the key kept. *)
Definition json_key (k : value) : result string :=
  match k with
  | VStr s => Ok s
  | VInt z => Ok (str_of_int z)
  | VBool true => Ok "true"
  | VBool false => Ok "false"
  | VNone => Ok "null"
  | _ => Raise TypeError
  end.

Definition dict_setitem (d : dict) (k v : value) : result dict :=
  match json_key k with
  | Ok s => Ok (dict_set d s v)
  | Raise e => Raise e
  | NoFuel => NoFuel
  end.

End Py.

Import Py.

Notation "'let?' x ':=' c 'in' k" := (rbind c (fun x => k))
  (at level 10, x pattern, c at level 100, k at level 200).

(* ===================================================================== *)
(** ** The two services and the trace of a run *)
(* ===================================================================== *)

Module IO.

Inductive service : Type := Aha | Jira.

(** A URL is either a formatted string or [urljoin(base, path)], which is
    kept symbolic. *)
Inductive url : Type :=
| Url (s : string)
| UrlJoin (base path : string).

(** The calls of [requests] the scripts make. [Post] and [Put] carry the
    object handed to [json.dumps]; [PostFile] is the multipart upload. *)
Inductive request : Type :=
| Get (s : service) (u : url) (params : dict)
| Post (u : url) (body : value)
| Put (u : url) (body : value)
| PostFile (u : url) (filename : value) (content : string).

(** What a request comes to: it (or [raise_for_status]) raises, or it
    answers with a body whose bytes are [content] and on which [.json()]
    gives [json]. *)
Inductive response : Type :=
| Failed (e : exn)
| Reply (content : string) (json : result value).

(** An entry of the error list of a run.  It keeps the idea and the
    exception where the script formats [f"Idea {idea_id}: {str(e)}"] or
    [f"Fatal error: {str(e)}"]: the text of [str(e)] is not modelled. *)
Inductive report : Type :=
| IdeaError (idea_id : value) (e : exn)
| FatalError (e : exn).

(** What a run leaves behind, in order.  [Throttle] stands for a call of
    [_rate_limit_aha] or [_rate_limit_jira]: the pause is not modelled.
    [Inspected] stands for the requests and the listing of
    [inspect_idea_fields].  Of the log, only the lines that announce how a
    run goes or went are kept, as [Logged]; the others are left out, but
    what they evaluate is evaluated. *)
Inductive event : Type :=
| Throttle (s : service)
| Sent (r : request)
| Printed (line : string)
| PrintedReport (r : report)
| Logged (line : string)
| WroteFile (name : string)
| Inspected.

Definition trace : Type := list event.

(** The environment of a run.  A service may answer according to all that
    happened before. *)
Record world : Type := MkWorld {
  respond : trace -> request -> response;
  (** [json.load(open('config.json'))] *)
  config_file : result value;
  (** whether [open('config.sample.json', 'w')] succeeds *)
  sample_writable : bool
}.

(** Effectful code: the trace so far goes in, the outcome and the extended
    trace come out. *)
Definition io (A : Type) : Type := trace -> result A * trace.

Definition ret {A} (a : A) : io A := fun t => (Ok a, t).

Definition raise {A} (e : exn) : io A := fun t => (Raise e, t).

Definition bind {A B} (c : io A) (k : A -> io B) : io B :=
  fun t =>
    match c t with
    | (Ok a, t') => k a t'
    | (Raise e, t') => (Raise e, t')
    | (NoFuel, t') => (NoFuel, t')
    end.

(** A pure computation inside effectful code. *)
Definition lift {A} (r : result A) : io A := fun t => (r, t).

Definition emit (e : event) : io unit := fun t => (Ok tt, (t ++ [e])%list).

(** [try: body except <caught>: handler] *)
Definition catch {A} (body : io A) (caught : exn -> bool)
           (handler : exn -> io A) : io A :=
  fun t =>
    match body t with
    | (Raise e, t') => if caught e then handler e t' else (Raise e, t')
    | r => r
    end.

(** [except Exception] *)
Definition any_exception (e : exn) : bool := negb (exn_eqb e SystemExit).

(** [except requests.exceptions.RequestException] *)
Definition request_exception (e : exn) : bool := exn_eqb e RequestException.

(** The exit status of a script whose top level evaluates to [r]: 0 when
    it returns, 1 when an exception (or [sys.exit(1)]) ends it. *)
Definition exit_status {A} (r : result A * trace) : result Z :=
  match fst r with
  | Ok _ => Ok 0
  | Raise _ => Ok 1
  | NoFuel => NoFuel
  end.

(** [response = requests.<verb>(...); response.raise_for_status()]: the
    request is recorded, then answered. *)
Definition send_checked (w : world) (r : request) : io (string * result value) :=
  fun t =>
    match respond w t r with
    | Failed e => (Raise e, (t ++ [Sent r])%list)
    | Reply c j => (Ok (c, j), (t ++ [Sent r])%list)
    end.

(** [... ; response.json()] *)
Definition send_json (w : world) (r : request) : io value :=
  bind (send_checked w r) (fun cj => lift (snd cj)).

Fixpoint for_each {A} (l : list A) (body : A -> io unit) : io unit :=
  match l with
  | [] => ret tt
  | x :: l' => bind (body x) (fun _ => for_each l' body)
  end.

End IO.

Import IO.

Declare Scope io_scope.
Delimit Scope io_scope with io.
Notation "x <- c ;; k" := (IO.bind c (fun x => k))
  (at level 100, c at next level, right associativity) : io_scope.
Notation "c ;;; k" := (IO.bind c (fun _ => k))
  (at level 100, right associativity) : io_scope.

(* ===================================================================== *)
(** ** [Ahaj.py]: the class [AhaJiraSync] *)
(* ===================================================================== *)

Module Ahaj.

Local Open Scope io_scope.

(** The body of a [for] loop either goes on with a new loop state or
    leaves the function with [return v]. *)
Inductive flow (A : Type) : Type :=
| Next (a : A)
| Return (v : value).
Arguments Next {A} a.
Arguments Return {A} v.

(** One turn of the loop of [get_nested_field_value]:
<<
    if isinstance(current, dict) and key in current:
        current = current[key]
    elif isinstance(current, list) and key.isdigit():
        try:
            current = current[int(key)]
        except (IndexError, ValueError):
            return None
    else:
        return None
>> *)
Definition nested_step (current : value) (key : string) : result (flow value) :=
  match current with
  | VDict d =>
      if dict_contains key d
      then (let? v := dict_getitem d key in Ok (Next v))
      else Ok (Return VNone)
  | VList l =>
      if isdigit key
      then rcatch (let? i := py_int key in
                   let? v := list_getitem l i in Ok (Next v))
                  (one_of [IndexError; ValueError])
                  (fun _ => Ok (Return VNone))
      else Ok (Return VNone)
  | _ => Ok (Return VNone)
  end.

Fixpoint nested_loop (current : value) (keys : list string) : result value :=
  match keys with
  | [] => Ok current
  | key :: keys' =>
      let? f := nested_step current key in
      match f with
      | Next current' => nested_loop current' keys'
      | Return v => Ok v
      end
  end.

(** [get_nested_field_value(self, data, field_path)] *)
Definition get_nested_field_value (data : value) (field_path : string) : result value :=
  nested_loop data (split "." field_path).

(** The methods that the body of [class AhaJiraSync] defines.  The class
    has no [fetch_idea_details] and no [map_priority]: the statements
    written for them follow the [return] that ends
    [format_comments_for_jira] and the last [return] of
    [add_web_link_to_jira_issue], under no [def] of their own. *)
Definition class_methods : list string :=
  [ "__init__"; "_rate_limit_aha"; "_rate_limit_jira"; "fetch_ideas_list";
    "fetch_idea_comments"; "format_comments_for_jira"; "format_description";
    "map_assignee"; "find_jira_user_by_email"; "map_status";
    "add_comment_to_jira_issue"; "add_web_link_to_jira_issue";
    "create_jira_issue"; "get_nested_field_value"; "sync_ideas" ].

Definition class_defines (name : string) : bool :=
  existsb (String.eqb name) class_methods.

(** The class as it would be with the two missing [def] lines restored. *)
Definition repaired_defines (name : string) : bool :=
  existsb (String.eqb name)
          ("fetch_idea_details" :: "map_priority" :: class_methods).

(** The summary built by [sync_ideas]. *)
Record results : Type := MkResults {
  total_ideas : Z;
  successful_syncs : Z;
  failed_syncs : Z;
  errors : list report
}.

Section AhaJiraSync.

(** Which attributes [self.<name>] resolve to a method. *)
Variable defines : string -> bool.
Variable w : world.
(** [self.config] *)
Variable config : value.
(** Bound on the pages [fetch_ideas_list] reads. *)
Variable fuel : nat.

(** [self.<name>(...)]: the attribute lookup comes first. *)
Definition call {A} (name : string) (body : io A) : io A :=
  if defines name then body else raise AttributeError.

(** [self.config[a][b]] *)
Definition config_at (a b : string) : result value :=
  let? x := py_getitem config (VStr a) in
  py_getitem x (VStr b).

(** [self.config.get('field_mappings', {})] *)
Definition field_mappings : result value :=
  py_get config "field_mappings" (VDict []).

(** [__init__(self, config)]: the three credentials are read from the
    configuration. *)
Definition __init__ : result unit :=
  let? _ := config_at "aha" "api_token" in
  let? _ := config_at "jira" "username" in
  let? _ := config_at "jira" "api_token" in
  Ok tt.

Definition _rate_limit_aha : io unit := emit (Throttle Aha).
Definition _rate_limit_jira : io unit := emit (Throttle Jira).

(** The [while True] loop of [fetch_ideas_list]. *)
Fixpoint fetch_pages (n : nat) (u : url) (page : Z) (all_ideas : list value)
  : io (list value) :=
  match n with
  | O => lift NoFuel
  | S n' =>
      data <- send_json w (Get Aha u [("per_page", VInt 100); ("page", VInt page)]) ;;
      ideas <- lift (py_get data "ideas" (VList [])) ;;
      if negb (truthy ideas) then ret all_ideas
      else
        items <- lift (py_iter ideas) ;;
        let all_ideas' := (all_ideas ++ items)%list in
        if Z.of_nat (List.length items) <? 100 then ret all_ideas'
        else fetch_pages n' u (page + 1) all_ideas'
  end.

Definition fetch_ideas_list (product_id : value) : io (list value) :=
  call "_rate_limit_aha" _rate_limit_aha ;;;
  base <- lift (config_at "aha" "base_url") ;;
  let u := Url (py_str base ++ "/api/v1/products/" ++ py_str product_id ++ "/ideas") in
  catch (fetch_pages fuel u 1 []) request_exception (fun e => raise e).

Definition fetch_idea_comments (idea_id : value) : io value :=
  call "_rate_limit_aha" _rate_limit_aha ;;;
  base <- lift (config_at "aha" "base_url") ;;
  let u := Url (py_str base ++ "/api/v1/ideas/" ++ py_str idea_id ++ "/comments") in
  catch (data <- send_json w (Get Aha u []) ;;
         lift (py_get data "comments" (VList [])))
        request_exception
        (fun _ => ret (VList [])).

(** The statements after the [return] of [format_comments_for_jira]
    (source lines 141-152), as the method [fetch_idea_details(self, idea_id)]
    they were written for. *)
Definition fetch_idea_details (idea_id : value) : io value :=
  call "_rate_limit_aha" _rate_limit_aha ;;;
  base <- lift (config_at "aha" "base_url") ;;
  let u := Url (py_str base ++ "/api/v1/ideas/" ++ py_str idea_id) in
  catch (data <- send_json w (Get Aha u []) ;;
         lift (py_getitem data (VStr "idea")))
        request_exception
        (fun e => raise e).

(** [sep.join(items)]: every item must be a string. *)
Fixpoint strings_of (items : list value) : result (list string) :=
  match items with
  | [] => Ok []
  | VStr s :: rest => let? r := strings_of rest in Ok (s :: r)
  | _ :: _ => Raise TypeError
  end.

Definition join_values (sep : string) (items : list value) : result string :=
  let? parts := strings_of items in Ok (join sep parts).

(** The header line of one comment. *)
Definition comment_header (author_name author_email created_at : value) : string :=
  let h := "*Commented by:* " ++ py_str author_name in
  let h := if truthy author_email then h ++ " (" ++ py_str author_email ++ ")" else h in
  h ++ " on " ++ py_str created_at.

(** One turn of the loop of [format_comments_for_jira]: the four lines
    that [formatted_comments.extend] adds. *)
Definition comment_block (comment : value) : result (list value) :=
  let? created_by := py_get comment "created_by" (VDict []) in
  let? author_name := py_get created_by "name" (VStr "Unknown User") in
  let? author_email := py_get created_by "email" (VStr "") in
  let? created_at := py_get comment "created_at" (VStr "Unknown Date") in
  let? body := py_get comment "body" (VStr "No content") in
  Ok [VStr "---"; VStr (comment_header author_name author_email created_at);
      body; VStr ""].

Fixpoint comment_loop (formatted : list value) (comments : list value)
  : result (list value) :=
  match comments with
  | [] => Ok formatted
  | c :: rest =>
      let? block := comment_block c in
      comment_loop (formatted ++ block)%list rest
  end.

Definition newline : string := String (ascii_of_N 10) "".

(** [format_comments_for_jira(self, comments)] *)
Definition format_comments_for_jira (comments : value) : result string :=
  if negb (truthy comments) then Ok ""
  else
    let? cs := py_iter comments in
    let? formatted := comment_loop [VStr "*Comments from Aha!:*"; VStr ""] cs in
    join_values newline formatted.

(** [[f(x) for x in xs]] *)
Fixpoint comprehension {A} (f : value -> result A) (xs : list value)
  : result (list A) :=
  match xs with
  | [] => Ok []
  | x :: rest =>
      let? y := f x in
      let? ys := comprehension f rest in
      Ok (y :: ys)
  end.

Definition fstr (s : string) : value := VStr s.

(** The [Custom Fields] section of [format_description]. *)
Fixpoint description_custom_fields (selected : value) (fields : list value)
         (parts : list value) : result (list value) :=
  match fields with
  | [] => Ok parts
  | field :: rest =>
      let? field_name := py_get field "name" (VStr "Unknown Field") in
      let? chosen := py_in field_name selected in
      if chosen then
        let? field_value := py_get field "value" (VStr "N/A") in
        description_custom_fields selected rest
          (parts ++ [fstr ("• *" ++ py_str field_name ++ ":* " ++ py_str field_value)])%list
      else description_custom_fields selected rest parts
  end.

(** [format_description(self, idea)] *)
Definition format_description (idea : value) : result string :=
  let parts : list value := [] in
  let? description := py_get idea "description" VNone in
  let parts :=
    if truthy description
    then (parts ++ [VStr "*Original Description:*"; description; VStr ""])%list
    else parts in
  let? link := py_get idea "url" VNone in
  let parts :=
    if truthy link
    then (parts ++ [fstr ("*Aha! Link:* " ++ py_str link); VStr ""])%list
    else parts in
  let? score := py_get idea "score" VNone in
  let parts :=
    if truthy score
    then (parts ++ [fstr ("*Score:* " ++ py_str score)])%list
    else parts in
  let? cats := py_get idea "categories" VNone in
  let? parts :=
    if truthy cats then
      let? cs := py_iter cats in
      let? names := comprehension (fun c => py_get c "name" (VStr "")) cs in
      let? joined := join_values ", " names in
      Ok (parts ++ [fstr ("*Categories:* " ++ joined)])%list
    else Ok parts in
  let? fm := field_mappings in
  let? selected := py_get fm "description_custom_fields" (VList []) in
  let? custom := py_get idea "custom_fields" VNone in
  let? parts :=
    if truthy custom && truthy selected then
      let? fields := py_iter custom in
      description_custom_fields selected fields
        (parts ++ [VStr ""; VStr "*Custom Fields:*"])%list
    else Ok parts in
  let? portal_info := py_get idea "portal" VNone in
  let? parts :=
    if truthy portal_info then
      let? pname := py_get portal_info "name" (VStr "N/A") in
      let parts := (parts ++ [VStr ""; VStr "*Portal Information:*";
                              fstr ("• *Portal:* " ++ py_str pname)])%list in
      let? purl := py_get portal_info "url" VNone in
      if truthy purl
      then Ok (parts ++ [fstr ("• *Portal URL:* " ++ py_str purl)])%list
      else Ok parts
    else Ok parts in
  let? created_by := py_get idea "created_by" VNone in
  let? parts :=
    if truthy created_by then
      let? cname := py_get created_by "name" (VStr "Unknown") in
      let? cmail := py_get created_by "email" (VStr "N/A") in
      Ok (parts ++ [VStr ""; fstr ("*Created by:* " ++ py_str cname
                                    ++ " (" ++ py_str cmail ++ ")")])%list
    else Ok parts in
  let? created_at := py_get idea "created_at" VNone in
  let parts :=
    if truthy created_at
    then (parts ++ [fstr ("*Created:* " ++ py_str created_at)])%list
    else parts in
  let? feature := py_get idea "feature" VNone in
  let? parts :=
    if truthy feature then
      let parts := (parts ++ [VStr ""; VStr "*Related Feature:*"])%list in
      let? fref := py_get feature "reference_num" VNone in
      let parts :=
        if truthy fref
        then (parts ++ [fstr ("• *Feature Reference:* " ++ py_str fref)])%list
        else parts in
      let? furl := py_get feature "url" VNone in
      let parts :=
        if truthy furl
        then (parts ++ [fstr ("• *Feature URL:* " ++ py_str furl)])%list
        else parts in
      let? fname := py_get feature "name" VNone in
      let parts :=
        if truthy fname
        then (parts ++ [fstr ("• *Feature Name:* " ++ py_str fname)])%list
        else parts in
      Ok parts
    else Ok parts in
  join_values newline parts.

(** [x.get(k, default)] where the key [k] is itself a value. *)
Definition py_get_key (x k default : value) : result value :=
  match x with
  | VDict d =>
      match k with
      | VStr s => Ok (dict_get d s default)
      | _ => if hashable k then Ok default else Raise TypeError
      end
  | _ => Raise AttributeError
  end.

(** [map_status(self, idea)] *)
Definition map_status (idea : value) : result value :=
  let? workflow_status := py_get idea "workflow_status" (VDict []) in
  let? aha_status := py_get workflow_status "name" (VStr "New") in
  let? fm := field_mappings in
  let? status_mappings := py_get fm "status_mappings" (VDict []) in
  if is_dict status_mappings then
    let? default_status := config_at "jira" "default_status" in
    py_get_key status_mappings aha_status default_status
  else Raise AttributeError.

(** The statements after the last [return] of
    [add_web_link_to_jira_issue] (source lines 329-344), as the method
    [map_priority(self, idea)] they were written for. *)
Definition map_priority (idea : value) : result value :=
  let? score := py_get idea "score" (VInt 0) in
  let? fm := field_mappings in
  let? priority_mappings :=
    py_get fm "priority_mappings"
           (VDict [("high", VStr "High"); ("medium", VStr "Medium");
                   ("low", VStr "Low")]) in
  let? high := py_ge score 80 in
  if high then py_get priority_mappings "high" (VStr "High")
  else
    let? medium := py_ge score 50 in
    if medium then py_get priority_mappings "medium" (VStr "Medium")
    else py_get priority_mappings "low" (VStr "Low").

(** [find_jira_user_by_email(self, email)] *)
Definition find_jira_user_by_email (email : value) : io value :=
  call "_rate_limit_jira" _rate_limit_jira ;;;
  catch (base <- lift (config_at "jira" "base_url") ;;
         let u := Url (py_str base ++ "/rest/api/3/user/search") in
         users <- send_json w (Get Jira u [("query", email)]) ;;
         if truthy users then
           first <- lift (py_getitem users (VInt 0)) ;;
           lift (py_getitem first (VStr "accountId"))
         else ret VNone)
        request_exception
        (fun _ => ret VNone).

(** [map_assignee(self, idea)] *)
Definition map_assignee (idea : value) : io value :=
  assigned_to <- lift (py_get idea "assigned_to" VNone) ;;
  if negb (truthy assigned_to) then ret VNone
  else
    aha_email <- lift (py_get assigned_to "email" VNone) ;;
    if negb (truthy aha_email) then ret VNone
    else
      fm <- lift field_mappings ;;
      email_mappings <- lift (py_get fm "assignee_mappings" (VDict [])) ;;
      present <- lift (py_in aha_email email_mappings) ;;
      if present then lift (py_getitem email_mappings aha_email)
      else call "find_jira_user_by_email" (find_jira_user_by_email aha_email).

(** The Atlassian document that wraps a text. *)
Definition document (text : string) : value :=
  VDict [("type", VStr "doc"); ("version", VInt 1);
         ("content",
          VList [VDict [("type", VStr "paragraph");
                        ("content",
                         VList [VDict [("type", VStr "text");
                                       ("text", VStr text)]])]])].

(** [add_comment_to_jira_issue(self, issue_key, comment_text)] *)
Definition add_comment_to_jira_issue (issue_key : value) (comment_text : string)
  : io bool :=
  if blank comment_text then ret true
  else
    call "_rate_limit_jira" _rate_limit_jira ;;;
    let comment_data := VDict [("body", document comment_text)] in
    catch (base <- lift (config_at "jira" "base_url") ;;
           let u := Url (py_str base ++ "/rest/api/3/issue/" ++ py_str issue_key
                         ++ "/comment") in
           _ <- send_checked w (Post u comment_data) ;;
           ret true)
          request_exception
          (fun _ => ret false).

(** [add_web_link_to_jira_issue(self, issue_key, url, title)], up to its
    last [return]. *)
Definition add_web_link_to_jira_issue (issue_key link : value) (title : string)
  : io bool :=
  if negb (truthy link) then ret true
  else
    call "_rate_limit_jira" _rate_limit_jira ;;;
    let link_data := VDict [("object", VDict [("url", link); ("title", VStr title)])] in
    catch (base <- lift (config_at "jira" "base_url") ;;
           let u := Url (py_str base ++ "/rest/api/3/issue/" ++ py_str issue_key
                         ++ "/remotelink") in
           _ <- send_checked w (Post u link_data) ;;
           ret true)
          request_exception
          (fun _ => ret false).

(** [cat.get('name', '').replace(' ', '_')] *)
Definition category_label (cat : value) : result value :=
  let? name := py_get cat "name" (VStr "") in
  match name with
  | VStr s => Ok (VStr (replace_char " " "_" s))
  | _ => Raise AttributeError
  end.

(** [created_date.split('T')[0]] *)
Definition date_part (created_date : value) : result value :=
  match created_date with
  | VStr s =>
      match split "T" s with
      | h :: _ => Ok (VStr h)
      | [] => Raise IndexError
      end
  | _ => Raise AttributeError
  end.

(** [a and b], where evaluating [b] may raise: [b] is evaluated only when
    [a] is true.  Gives the truth value of the conjunction. *)
Definition and_then (a : value) (b : result value) : result bool :=
  if truthy a then (let? y := b in Ok (truthy y)) else Ok false.

(** The loop over [custom_fields.items()] in [create_jira_issue]. *)
Fixpoint custom_fields_loop (idea : value) (items : dict) (fields : dict)
  : io dict :=
  match items with
  | [] => ret fields
  | (aha_field_path, jira_field) :: rest =>
      field_value <- call "get_nested_field_value"
                          (lift (get_nested_field_value idea aha_field_path)) ;;
      match field_value with
      | VNone => custom_fields_loop idea rest fields
      | _ =>
          fields' <- lift (dict_setitem fields jira_field field_value) ;;
          custom_fields_loop idea rest fields'
      end
  end.

(** [create_jira_issue], from its first statement to the end of the loop
    over the custom fields: the content of [issue_data["fields"]]. *)
Definition build_fields (idea : value) : io dict :=
  project_key <- lift (config_at "jira" "project_key") ;;
  summary <- lift (py_get idea "name" (VStr "Untitled Idea")) ;;
  description <- call "format_description" (lift (format_description idea)) ;;
  issue_type <- lift (config_at "jira" "issue_type") ;;
  priority <- call "map_priority" (lift (map_priority idea)) ;;
  let fields : dict :=
    [("project", VDict [("key", project_key)]);
     ("summary", summary);
     ("description", document description);
     ("issuetype", VDict [("name", issue_type)]);
     ("priority", VDict [("name", priority)])] in
  assignee <- call "map_assignee" (map_assignee idea) ;;
  let fields :=
    if truthy assignee
    then dict_set fields "assignee" (VDict [("accountId", assignee)])
    else fields in
  categories <- lift (py_get idea "categories" VNone) ;;
  labels <- (if truthy categories
             then lift (let? cats := py_iter categories in
                        comprehension category_label cats)
             else ret []) ;;
  let labels := (labels ++ [VStr "aha-import"])%list in
  let fields := dict_set fields "labels" (VList labels) in
  fm <- lift field_mappings ;;
  reference_num <- lift (py_get idea "reference_num" VNone) ;;
  mapped <- lift (and_then reference_num (py_get fm "xref_id_field" VNone)) ;;
  fields <- (if mapped
             then lift (let? target := py_getitem fm (VStr "xref_id_field") in
                        dict_setitem fields target reference_num)
             else ret fields) ;;
  created_at <- lift (py_get idea "created_at" VNone) ;;
  mapped <- lift (and_then created_at (py_get fm "xref_created_field" VNone)) ;;
  fields <- (if mapped
             then lift (let? has_t := py_in (VStr "T") created_at in
                        let? created_date :=
                          if has_t then date_part created_at else Ok created_at in
                        let? target := py_getitem fm (VStr "xref_created_field") in
                        dict_setitem fields target created_date)
             else ret fields) ;;
  created_by <- lift (py_get idea "created_by" (VDict [])) ;;
  email <- lift (py_get created_by "email" VNone) ;;
  mapped <- lift (and_then email (py_get fm "xref_reporter_field" VNone)) ;;
  fields <- (if mapped
             then lift (let? target := py_getitem fm (VStr "xref_reporter_field") in
                        dict_setitem fields target email)
             else ret fields) ;;
  custom_fields <- lift (py_get fm "custom_fields" (VDict [])) ;;
  match custom_fields with
  | VDict items => custom_fields_loop idea items fields
  | _ => raise AttributeError
  end.

(** [create_jira_issue(self, idea)] *)
Definition create_jira_issue (idea : value) : io value :=
  call "_rate_limit_jira" _rate_limit_jira ;;;
  fields <- build_fields idea ;;
  let issue_data := VDict [("fields", VDict fields)] in
  catch (base <- lift (config_at "jira" "base_url") ;;
         let u := Url (py_str base ++ "/rest/api/3/issue") in
         created_issue <- send_json w (Post u issue_data) ;;
         issue_key <- lift (py_getitem created_issue (VStr "key")) ;;
         link <- lift (py_get idea "url" VNone) ;;
         (if truthy link then
            name <- lift (py_get idea "name" (VStr "Untitled")) ;;
            _ <- call "add_web_link_to_jira_issue"
                      (add_web_link_to_jira_issue issue_key link
                         ("Aha! Idea: " ++ py_str name)) ;;
            ret tt
          else ret tt) ;;;
         ret issue_key)
        request_exception
        (fun _ => ret VNone).

Definition count_success (r : results) : results :=
  MkResults (total_ideas r) (successful_syncs r + 1) (failed_syncs r) (errors r).

Definition count_failure (r : results) : results :=
  MkResults (total_ideas r) (successful_syncs r) (failed_syncs r + 1) (errors r).

Definition add_error (x : report) (r : results) : results :=
  MkResults (total_ideas r) (successful_syncs r) (failed_syncs r)
            (errors r ++ [x])%list.

(** The inner [try] of [sync_ideas] for one idea, with its
    [except Exception] clause. *)
Definition sync_one (idea_id : value) (r : results) : io results :=
  catch (detailed_idea <- call "fetch_idea_details" (fetch_idea_details idea_id) ;;
         comments <- call "fetch_idea_comments" (fetch_idea_comments idea_id) ;;
         jira_issue_key <- call "create_jira_issue" (create_jira_issue detailed_idea) ;;
         if truthy jira_issue_key then
           (if truthy comments then
              formatted_comments <- call "format_comments_for_jira"
                                         (lift (format_comments_for_jira comments)) ;;
              _ <- call "add_comment_to_jira_issue"
                        (add_comment_to_jira_issue jira_issue_key formatted_comments) ;;
              ret tt
            else ret tt) ;;;
           ret (count_success r)
         else ret (count_failure r))
        any_exception
        (fun e => ret (add_error (IdeaError idea_id e) (count_failure r))).

(** The [for] loop of [sync_ideas].  The summary is updated in place, so
    when a turn raises (at [idea_summary['id']], or an exception that
    [except Exception] lets through) the loop stops with the summary as it
    then is, and the exception. *)
Fixpoint sync_loop (ideas_list : list value) (r : results)
  : trace -> (results * result unit) * trace :=
  fun t =>
    match ideas_list with
    | [] => ((r, Ok tt), t)
    | idea_summary :: rest =>
        match py_getitem idea_summary (VStr "id") with
        | Ok idea_id =>
            match sync_one idea_id r t with
            | (Ok r', t') => sync_loop rest r' t'
            | (Raise e, t') => ((r, Raise e), t')
            | (NoFuel, t') => ((r, NoFuel), t')
            end
        | Raise e => ((r, Raise e), t)
        | NoFuel => ((r, NoFuel), t)
        end
    end.

(** The outer [except Exception] clause of [sync_ideas]. *)
Definition fatal (r : results) (outcome : result unit) : result results :=
  match outcome with
  | Ok _ => Ok r
  | Raise e =>
      if any_exception e then Ok (add_error (FatalError e) r) else Raise e
  | NoFuel => NoFuel
  end.

(** [sync_ideas(self, product_id)] *)
Definition sync_ideas (product_id : value) : io results :=
  fun t =>
    let r := MkResults 0 0 0 [] in
    match call "fetch_ideas_list" (fetch_ideas_list product_id) t with
    | (Ok ideas_list, t1) =>
        let r := MkResults (Z.of_nat (List.length ideas_list))
                           (successful_syncs r) (failed_syncs r) (errors r) in
        match sync_loop ideas_list r t1 with
        | ((r', outcome), t2) => (fatal r' outcome, t2)
        end
    | (Raise e, t1) => (fatal r (Raise e), t1)
    | (NoFuel, t1) => (NoFuel, t1)
    end.

(** [load_config()]: both [except] clauses log and raise again. *)
Definition load_config : io value := lift (config_file w).

(** [create_sample_config()] *)
Definition create_sample_config : io unit :=
  if sample_writable w then
    emit (WroteFile "config.sample.json") ;;;
    emit (Printed "Sample configuration created: config.sample.json") ;;;
    emit (Printed "Please copy it to config.json and update with your actual values")
  else raise OSError.

(** [inspect_idea_fields(...)]: its whole body is inside
    [try: ... except Exception], so it returns normally; what it asks and
    lists is not modelled. *)
Definition inspect_idea_fields : io unit := emit Inspected.

Definition rule : string :=
  "==================================================".

(** The summary that [main] prints. *)
Definition print_summary (r : results) : io unit :=
  emit (Printed (newline ++ rule)) ;;;
  emit (Printed "SYNC SUMMARY") ;;;
  emit (Printed rule) ;;;
  emit (Printed ("Total ideas processed: " ++ str_of_int (total_ideas r))) ;;;
  emit (Printed ("Successfully synced: " ++ str_of_int (successful_syncs r))) ;;;
  emit (Printed ("Failed to sync: " ++ str_of_int (failed_syncs r))) ;;;
  match errors r with
  | [] => ret tt
  | es =>
      emit (Printed (newline ++ "Errors encountered:")) ;;;
      for_each es (fun e => emit (PrintedReport e))
  end.

End AhaJiraSync.

Section Main.

Variable defines : string -> bool.
Variable w : world.
Variable fuel : nat.

(** The [try] block of [main]. *)
Definition main_sync (argv : list string) : io unit :=
  config <- load_config w ;;
  product_id <- match argv with
                | _ :: arg :: _ => ret (VStr arg)
                | _ => aha <- lift (py_get config "aha" (VDict [])) ;;
                       lift (py_get aha "product_id" VNone)
                end ;;
  if negb (truthy product_id) then
    emit (Logged "Product ID not provided. Use: python script.py <product_id>")
  else
    _ <- lift (__init__ config) ;;
    results <- call defines "sync_ideas" (sync_ideas defines w config fuel product_id) ;;
    print_summary results.

(** [len(sys.argv) > 1 and sys.argv[1] == flag] *)
Definition first_argument_is (argv : list string) (flag : string) : bool :=
  match argv with
  | _ :: arg :: _ => String.eqb arg flag
  | _ => false
  end.

(** [main()] *)
Definition main (argv : list string) : io unit :=
  if first_argument_is argv "--create-config" then create_sample_config w
  else if first_argument_is argv "--inspect-fields" then inspect_idea_fields
  else catch (main_sync argv) any_exception (fun _ => raise SystemExit).

End Main.

End Ahaj.

(* ===================================================================== *)
(** ** [Jira2AhaSync.py]: the class [JiraAhaSync] *)
(* ===================================================================== *)

Module Jira2AhaSync.

Local Open Scope io_scope.

(** The fields of the dataclass [Config], in the order of the class body.
    [additional_field_mappings] is as [__post_init__] leaves it: a dict. *)
Record Config : Type := MkConfig {
  jira_url : string;
  jira_username : string;
  jira_token : string;
  jira_project_key : string;
  jira_aha_reference_field : string;
  aha_domain : string;
  aha_api_key : string;
  update_description : bool;
  update_attachments : bool;
  dry_run : bool;
  test_run : bool;
  test_issue_limit : Z;
  additional_field_mappings : list (string * string)
}.

(** Whether each field of the class body has a default, in order. *)
Definition Config_fields : list (string * bool) :=
  [ ("jira_url", false); ("jira_username", false); ("jira_token", false);
    ("jira_project_key", false); ("jira_aha_reference_field", true);
    ("aha_domain", false); ("aha_api_key", false);
    ("update_description", true); ("update_attachments", true);
    ("dry_run", true); ("test_run", true); ("test_issue_limit", true);
    ("additional_field_mappings", true) ].

(** What [@dataclass] checks when it builds [__init__]: a field without a
    default may not follow a field with one. *)
Fixpoint dataclass (seen_default : bool) (fields : list (string * bool))
  : result unit :=
  match fields with
  | [] => Ok tt
  | (_, has_default) :: rest =>
      if has_default then dataclass true rest
      else if seen_default then Raise TypeError
      else dataclass seen_default rest
  end.

Section JiraAhaSync.

Variable w : world.
(** [self.config] *)
Variable config : Config.

Definition quoted (s : string) : string :=
  String double_quote (s ++ String double_quote "").

(** [get_jira_issues(self)] *)
Definition get_jira_issues : io value :=
  let jql := "project = " ++ quoted (jira_project_key config) ++ " AND "
             ++ quoted (jira_aha_reference_field config) ++ " is not EMPTY" in
  let u := UrlJoin (jira_url config) "/rest/api/3/search" in
  let params : dict :=
    [("jql", VStr jql);
     ("fields", VStr ("key,summary,description,attachment,"
                      ++ jira_aha_reference_field config));
     ("maxResults", VInt (if test_run config then test_issue_limit config else 100))] in
  catch (data <- send_json w (Get Jira u params) ;;
         issues <- lift (py_get data "issues" (VList [])) ;;
         (* the log lines format [len(issues)] *)
         _ <- lift (py_len issues) ;;
         ret issues)
        request_exception
        (fun _ => ret (VList [])).

(** [get_aha_idea(self, idea_id)] *)
Definition get_aha_idea (idea_id : value) : io value :=
  let u := Url ("https://" ++ aha_domain config ++ "/api/v1/ideas/" ++ py_str idea_id) in
  catch (idea_data <- send_json w (Get Aha u []) ;;
         lift (py_get idea_data "idea" (VDict [])))
        request_exception
        (fun _ => ret VNone).

(** [get_aha_attachments(self, idea_id)] *)
Definition get_aha_attachments (idea_id : value) : io value :=
  let u := Url ("https://" ++ aha_domain config ++ "/api/v1/ideas/" ++ py_str idea_id
                ++ "/attachments") in
  catch (data <- send_json w (Get Aha u []) ;;
         attachments <- lift (py_get data "attachments" (VList [])) ;;
         _ <- lift (py_len attachments) ;;
         ret attachments)
        request_exception
        (fun _ => ret (VList [])).

(** [download_attachment(self, attachment_url)]: the bytes, or [None]. *)
Definition download_attachment (attachment_url : value) : io (option string) :=
  catch (cj <- send_checked w (Get Aha (Url (py_str attachment_url)) []) ;;
         ret (Some (fst cj)))
        request_exception
        (fun _ => ret None).

(** [upload_attachment_to_jira(self, issue_key, filename, content)] *)
Definition upload_attachment_to_jira (issue_key filename : value) (content : string)
  : io bool :=
  let u := UrlJoin (jira_url config)
                   ("/rest/api/3/issue/" ++ py_str issue_key ++ "/attachments") in
  catch (_ <- send_checked w (PostFile u filename content) ;;
         ret true)
        request_exception
        (fun _ => ret false).

(** [update_jira_issue(self, issue_key, fields)] *)
Definition update_jira_issue (issue_key : value) (fields : dict) : io bool :=
  let u := UrlJoin (jira_url config) ("/rest/api/3/issue/" ++ py_str issue_key) in
  let update_data := VDict [("fields", VDict fields)] in
  if dry_run config then
    emit (Logged ("DRY RUN: Would update " ++ py_str issue_key ++ " with fields: "
                  ++ py_str (VList (map (fun kv => VStr (fst kv)) fields)))) ;;;
    ret true
  else
    catch (_ <- send_checked w (Put u update_data) ;;
           ret true)
          request_exception
          (fun _ => ret false).

(** The loop over [additional_field_mappings.items()]. *)
Fixpoint additional_fields (aha_idea : value) (mappings : list (string * string))
         (update_fields : dict) : result dict :=
  match mappings with
  | [] => Ok update_fields
  | (aha_field, jira_field) :: rest =>
      let? present := py_in (VStr aha_field) aha_idea in
      if present then
        let? v := py_getitem aha_idea (VStr aha_field) in
        additional_fields aha_idea rest (dict_set update_fields jira_field v)
      else additional_fields aha_idea rest update_fields
  end.

(** One turn of the loop over the attachments. *)
Definition sync_attachment (issue_key attachment : value) : io unit :=
  attachment_url <- lift (py_get attachment "download_url" VNone) ;;
  id <- lift (py_get attachment "id" VNone) ;;
  filename <- lift (py_get attachment "filename"
                           (VStr ("aha_attachment_" ++ py_str id))) ;;
  if truthy attachment_url then
    content <- download_attachment attachment_url ;;
    match content with
    | Some bytes =>
        if negb (String.eqb bytes "") then
          _ <- upload_attachment_to_jira issue_key filename bytes ;;
          ret tt
        else ret tt
    | None => ret tt
    end
  else ret tt.

(** [sync_issue_with_aha(self, jira_issue)] *)
Definition sync_issue_with_aha (jira_issue : value) : io bool :=
  issue_key <- lift (py_getitem jira_issue (VStr "key")) ;;
  fields <- lift (py_getitem jira_issue (VStr "fields")) ;;
  aha_reference <- lift (py_get fields (jira_aha_reference_field config) VNone) ;;
  if negb (truthy aha_reference) then ret false
  else
    aha_idea <- get_aha_idea aha_reference ;;
    if negb (truthy aha_idea) then ret false
    else
      let update_fields : dict := [] in
      update_fields <-
        (if update_description config then
           aha_description <- lift (py_get aha_idea "description" VNone) ;;
           if truthy aha_description then
             ret (dict_set update_fields "description"
                    (Ahaj.document ("Synced from Aha:" ++ Ahaj.newline
                                    ++ py_str aha_description)))
           else ret update_fields
         else ret update_fields) ;;
      update_fields <- lift (additional_fields aha_idea
                               (additional_field_mappings config) update_fields) ;;
      success <- (match update_fields with
                  | [] => ret true
                  | _ => update_jira_issue issue_key update_fields
                  end) ;;
      (if update_attachments config && success then
         attachments <- get_aha_attachments aha_reference ;;
         items <- lift (py_iter attachments) ;;
         for_each items (sync_attachment issue_key)
       else ret tt) ;;;
      ret success.

(** The loop of [run_sync]; gives [success_count].  The handler of
    [except Exception] formats [issue['key']] into its log line. *)
Fixpoint run_loop (issues : list value) (success_count : Z) : io Z :=
  match issues with
  | [] => ret success_count
  | issue :: rest =>
      n <- catch (ok <- sync_issue_with_aha issue ;;
                  ret (if ok then success_count + 1 else success_count))
                 any_exception
                 (fun _ => _ <- lift (py_getitem issue (VStr "key")) ;;
                           ret success_count) ;;
      run_loop rest n
  end.

(** [run_sync(self)] *)
Definition run_sync : io unit :=
  (if dry_run config
   then emit (Logged "Running in DRY RUN mode - no changes will be made")
   else ret tt) ;;;
  jira_issues <- get_jira_issues ;;
  if negb (truthy jira_issues) then ret tt
  else
    issues <- lift (py_iter jira_issues) ;;
    success_count <- run_loop issues 0 ;;
    emit (Logged ("Synchronization complete. Successfully processed "
                  ++ str_of_int success_count ++ "/"
                  ++ str_of_int (Z.of_nat (List.length issues)) ++ " issues")).

End JiraAhaSync.

(** The parsed command line. *)
Record arguments : Type := MkArguments {
  arg_test : bool;
  arg_test_limit : Z;
  arg_dry_run : bool;
  arg_list_issues : bool
}.

Definition set_test (c : Config) (limit : Z) : Config :=
  MkConfig (jira_url c) (jira_username c) (jira_token c) (jira_project_key c)
           (jira_aha_reference_field c) (aha_domain c) (aha_api_key c)
           (update_description c) (update_attachments c) (dry_run c)
           true limit (additional_field_mappings c).

Definition set_dry_run (c : Config) : Config :=
  MkConfig (jira_url c) (jira_username c) (jira_token c) (jira_project_key c)
           (jira_aha_reference_field c) (aha_domain c) (aha_api_key c)
           (update_description c) (update_attachments c) true
           (test_run c) (test_issue_limit c) (additional_field_mappings c).

(** [[field for field in required_fields if not getattr(config, field)]] *)
Definition missing_fields (c : Config) : list string :=
  map fst
      (filter (fun fv => String.eqb (snd fv) "")
              [ ("jira_url", jira_url c); ("jira_username", jira_username c);
                ("jira_token", jira_token c);
                ("jira_project_key", jira_project_key c);
                ("aha_domain", aha_domain c); ("aha_api_key", aha_api_key c) ]).

(** The listing of [--list-issues]. *)
Fixpoint list_loop (c : Config) (issues : list value) : result unit :=
  match issues with
  | [] => Ok tt
  | issue :: rest =>
      let? fields := py_getitem issue (VStr "fields") in
      let? _ := py_get fields (jira_aha_reference_field c) (VStr "N/A") in
      let? _ := py_getitem issue (VStr "key") in
      let? _ := py_get fields "summary" (VStr "No summary") in
      list_loop c rest
  end.

(** [main()], from the configuration that [load_config_from_env] gives
    (or the exception it raises) and the parsed arguments. *)
Definition main (w : world) (loaded : result Config) (args : arguments) : io unit :=
  config <- lift loaded ;;
  let config := if arg_test args then set_test config (arg_test_limit args) else config in
  let config := if arg_dry_run args then set_dry_run config else config in
  match missing_fields config with
  | _ :: _ as missing =>
      emit (Logged ("Missing required configuration: " ++ join ", " missing))
  | [] =>
      if arg_list_issues args then
        issues <- get_jira_issues w config ;;
        if truthy issues then
          items <- lift (py_iter issues) ;;
          lift (list_loop config items)
        else ret tt
      else run_sync w config
  end.

(** The script: the module body (the class definitions), then [main()]. *)
Definition script (w : world) (loaded : result Config) (args : arguments) : io unit :=
  _ <- lift (dataclass false Config_fields) ;;
  main w loaded args.

End Jira2AhaSync.

(* ===================================================================== *)
(** ** [Jira2AhaSync.py]: the configuration read from the environment *)
(* ===================================================================== *)

(** [load_config_from_env()], with the string methods and the [int] it
    applies to what the environment holds. *)
Module Startup.

(** [s.lower()] on ASCII text. *)
Definition lower_char (c : ascii) : ascii :=
  let n := N_of_ascii c in
  if ((65 <=? n) && (n <=? 90))%N then ascii_of_N (n + 32) else c.

Fixpoint lower (s : string) : string :=
  match s with
  | EmptyString => EmptyString
  | String c rest => String (lower_char c) (lower rest)
  end.

Fixpoint lstrip (s : string) : string :=
  match s with
  | EmptyString => EmptyString
  | String c rest => if is_space c then lstrip rest else s
  end.

Fixpoint reverse (acc s : string) : string :=
  match s with
  | EmptyString => acc
  | String c rest => reverse (String c acc) rest
  end.

(** [s.strip()] *)
Definition strip (s : string) : string :=
  reverse "" (lstrip (reverse "" (lstrip s))).

(** The digits of an integer literal: single underscores may separate
    digits; [after_digit] tells whether the character before was a digit. *)
Fixpoint literal_digits (acc : Z) (after_digit : bool) (s : string) : result Z :=
  match s with
  | EmptyString => if after_digit then Ok acc else Raise ValueError
  | String c rest =>
      match digit_of c with
      | Some d => literal_digits (10 * acc + d) true rest
      | None =>
          if Ascii.eqb c "_" && after_digit
          then literal_digits acc false rest
          else Raise ValueError
      end
  end.

(** [int(s)] for a string [s]: white space around, an optional sign, then
    decimal digits. *)
Definition int_of_text (s : string) : result Z :=
  match strip s with
  | String "-" digits =>
      match literal_digits 0 false digits with
      | Ok z => Ok (- z)
      | r => r
      end
  | String "+" digits => literal_digits 0 false digits
  | digits => literal_digits 0 false digits
  end.

(** [os.getenv(name, default)] *)
Definition getenv (env : string -> option string) (name default : string) : string :=
  match env name with
  | Some v => v
  | None => default
  end.

(** [os.getenv(name, default).lower() == 'true'] *)
Definition flag (env : string -> option string) (name default : string) : bool :=
  String.eqb (lower (getenv env name default)) "true".

(** [load_config_from_env()] *)
Definition load_config_from_env (env : string -> option string)
  : result Jira2AhaSync.Config :=
  let? limit := int_of_text (getenv env "TEST_ISSUE_LIMIT" "3") in
  Ok (Jira2AhaSync.MkConfig
        (getenv env "JIRA_URL" "https://your-domain.atlassian.net")
        (getenv env "JIRA_USERNAME" "")
        (getenv env "JIRA_TOKEN" "")
        (getenv env "JIRA_PROJECT_KEY" "")
        (getenv env "JIRA_AHA_FIELD" "customfield_12345")
        (getenv env "AHA_DOMAIN" "yourcompany.aha.io")
        (getenv env "AHA_API_KEY" "")
        (flag env "UPDATE_DESCRIPTION" "true")
        (flag env "UPDATE_ATTACHMENTS" "true")
        (flag env "DRY_RUN" "false")
        (flag env "TEST_RUN" "false")
        limit
        []).

End Startup.

(* ===================================================================== *)
(** ** The words of the specification, and sample data *)
(* ===================================================================== *)

(** *** Resolution of a dotted path *)

(** "The segment parses as a non-negative integer index": a non-empty
    string of decimal digits, read by the standard library's reader. *)
Definition segment_index (segment : string) : option nat :=
  option_map Nat.of_uint (NilZero.uint_of_string segment).

(** One segment: a mapping is entered at a key it contains, an ordered
    sequence at an index within its bounds. *)
Inductive descends : value -> string -> value -> Prop :=
| descends_key : forall d segment v,
    dict_lookup segment d = Some v ->
    descends (VDict d) segment v
| descends_index : forall l segment n v,
    segment_index segment = Some n ->
    nth_error l n = Some v ->
    descends (VList l) segment v.


(** *** Configurations *)

(** The configuration that [create_sample_config] writes. *)
Definition sample_config : value :=
  VDict
    [ ("aha", VDict [("base_url", VStr "https://your-company.aha.io");
                     ("api_token", VStr "your-aha-api-token")]);
      ("jira", VDict [("base_url", VStr "https://your-company.atlassian.net");
                      ("username", VStr "your-email@company.com");
                      ("api_token", VStr "your-jira-api-token");
                      ("project_key", VStr "PROJ");
                      ("issue_type", VStr "Story");
                      ("default_status", VStr "To Do")]);
      ("field_mappings",
       VDict [("assignee_mappings",
               VDict [("aha-user@company.com", VStr "jira-user@company.com")]);
              ("status_mappings",
               VDict [("New", VStr "To Do");
                      ("Under review", VStr "In Progress");
                      ("Approved", VStr "To Do");
                      ("Shipped", VStr "Done")]);
              ("priority_mappings",
               VDict [("high", VStr "High");
                      ("medium", VStr "Medium");
                      ("low", VStr "Low")]);
              ("custom_fields",
               VDict [("custom_field_name", VStr "customfield_10001")])]) ].

(** The status table and the default target status that a configuration
    holds: [field_mappings.status_mappings] (empty when either level is
    left out) and [jira.default_status]. *)
Definition configures_status (config : value) (table : dict) (default : value) : Prop :=
  exists c fm jira,
    config = VDict c
    /\ dict_get c "field_mappings" (VDict []) = VDict fm
    /\ dict_get fm "status_mappings" (VDict []) = VDict table
    /\ dict_lookup "jira" c = Some (VDict jira)
    /\ dict_lookup "default_status" jira = Some default.

(** Priority derivation as the specification words it: the caller supplies
    the two thresholds and the label table.  [None] when the table has no
    label for the band. *)
Definition spec_priority (high medium : Z) (labels : dict) (score : Z)
  : option value :=
  if high <=? score then dict_lookup "high" labels
  else if medium <=? score then dict_lookup "medium" labels
  else dict_lookup "low" labels.

(** The labels that [map_priority] uses when the configuration has none. *)
Definition default_labels : dict :=
  [("high", VStr "High"); ("medium", VStr "Medium"); ("low", VStr "Low")].

(** The label table that a configuration holds:
    [field_mappings.priority_mappings], or the default one. *)
Definition configures_labels (config : value) (labels : dict) : Prop :=
  exists c fm,
    config = VDict c
    /\ dict_get c "field_mappings" (VDict []) = VDict fm
    /\ dict_get fm "priority_mappings" (VDict default_labels) = VDict labels.

(** The score that [map_priority] reads: the record's [score], 0 when the
    record has none. *)
Definition has_score (idea : value) (score : Z) : Prop :=
  exists i, idea = VDict i /\ dict_get i "score" (VInt 0) = VInt score.

(** A configuration that supplies thresholds of its own, 90 and 60, next
    to the label table. *)
Definition config_with_thresholds : value :=
  VDict [("field_mappings",
          VDict [("priority_mappings", VDict default_labels);
                 ("priority_thresholds",
                  VDict [("high", VInt 90); ("medium", VInt 60)])])].

(** *** Labels of the payload *)




Definition target_is (k : string) (target : value) : bool :=
  match json_key target with
  | Ok s => String.eqb s k
  | _ => false
  end.


(** *** Sample records and services *)

(** A world in which every request fails and there is no configuration
    file. *)
Definition silent_world : world :=
  MkWorld (fun _ _ => Failed RequestException) (Raise FileNotFoundError) false.





(** *** Comments *)

(** A source comment as the specification describes it: author name,
    optional author contact, timestamp, body. *)
Record comment : Type := MkComment {
  author : string;
  contact : option string;
  timestamp : string;
  body : string
}.


(** The header of a comment: author, contact in parentheses when there is
    one, timestamp. *)
Definition header_line (c : comment) : string :=
  "*Commented by:* " ++ author c
  ++ match contact c with
     | Some e => " (" ++ e ++ ")"
     | None => ""
     end
  ++ " on " ++ timestamp c.

(** The block of a comment: delimiter, header, body, empty line. *)
Definition block (c : comment) : list string :=
  ["---"; header_line c; body c; ""].


(** *** Runs *)

(** A source service with three ideas and no comments, and a target
    service that refuses the issue made from the second idea and accepts
    the others. *)
Definition three_ideas_world : world :=
  let aha := "https://your-company.aha.io/api/v1/" in
  let idea (n : Z) : value :=
    VDict [("id", VInt n); ("name", VStr ("Idea " ++ str_of_int n))] in
  let answer (v : value) : response := Reply "" (Ok v) in
  MkWorld
    (fun _ r =>
       match r with
       | Get Aha (Url u) _ =>
           if String.eqb u (aha ++ "products/P1/ideas") then
             answer (VDict [("ideas", VList [VDict [("id", VInt 1)];
                                             VDict [("id", VInt 2)];
                                             VDict [("id", VInt 3)]])])
           else if String.eqb u (aha ++ "ideas/1") then
             answer (VDict [("idea", idea 1)])
           else if String.eqb u (aha ++ "ideas/2") then
             answer (VDict [("idea", idea 2)])
           else if String.eqb u (aha ++ "ideas/3") then
             answer (VDict [("idea", idea 3)])
           else answer (VDict [("comments", VList [])])
       | Post _ (VDict [("fields", VDict fields)]) =>
           match dict_lookup "summary" fields with
           | Some (VStr "Idea 2") => Failed RequestException
           | Some (VStr "Idea 1") => answer (VDict [("key", VStr "PROJ-1")])
           | _ => answer (VDict [("key", VStr "PROJ-3")])
           end
       | _ => Failed RequestException
       end)
    (Ok sample_config)
    true.

(** A dry run with attachments enabled. *)
Definition dry_config : Jira2AhaSync.Config :=
  Jira2AhaSync.MkConfig
    "https://co.atlassian.net" "user@co.com" "jira-token" "PROJ"
    "customfield_12345" "co.aha.io" "aha-key"
    true true true false 3 [].

(** One issue that refers to an idea with a description and one
    attachment. *)
Definition one_attachment_world : world :=
  let answer (v : value) : response := Reply "" (Ok v) in
  MkWorld
    (fun _ r =>
       match r with
       | Get Jira _ _ =>
           answer (VDict [("issues",
                           VList [VDict [("key", VStr "PROJ-1");
                                         ("fields",
                                          VDict [("customfield_12345",
                                                  VStr "IDEA-1")])]])])
       | Get Aha (Url u) _ =>
           if String.eqb u "https://co.aha.io/api/v1/ideas/IDEA-1" then
             answer (VDict [("idea", VDict [("description", VStr "Better search")])])
           else if String.eqb u "https://co.aha.io/api/v1/ideas/IDEA-1/attachments" then
             answer (VDict [("attachments",
                             VList [VDict [("id", VInt 7);
                                           ("filename", VStr "mock.png");
                                           ("download_url",
                                            VStr "https://co.aha.io/files/7")]])])
           else Reply "PNG" (Raise JSONDecodeError)
       | _ => answer (VDict [])
       end)
    (Raise FileNotFoundError)
    false.

(** Whether an event is a write to the target service. *)
Definition is_write (e : event) : bool :=
  match e with
  | Sent (Post _ _) | Sent (Put _ _) | Sent (PostFile _ _ _) => true
  | _ => false
  end.

(** The configuration that [load_config_from_env] gives when no variable
    of the environment is set. *)
Definition env_defaults : Jira2AhaSync.Config :=
  Jira2AhaSync.MkConfig
    "https://your-domain.atlassian.net" "" "" ""
    "customfield_12345" "yourcompany.aha.io" ""
    true true false false 3 [].

Definition no_arguments : Jira2AhaSync.arguments :=
  Jira2AhaSync.MkArguments false 3 false false.

(** A world whose configuration file is the sample one, which names no
    product. *)
Definition sample_file_world : world :=
  MkWorld (fun _ _ => Failed RequestException) (Ok sample_config) true.

(** The arguments that make [main] run the sync. *)
Definition sync_mode (argv : list string) : Prop :=
  match argv with
  | _ :: arg :: _ => arg <> "--create-config" /\ arg <> "--inspect-fields"
  | _ => True
  end.

(** The product that [main] syncs: the first argument, or
    [aha.product_id] of the configuration. *)
Definition chosen_product (argv : list string) (config : value) : result value :=
  match argv with
  | _ :: arg :: _ => Ok (VStr arg)
  | _ => let? aha := py_get config "aha" (VDict []) in
         py_get aha "product_id" VNone
  end.

(** The three counts of the summary, as [main] prints them. *)
Definition count_lines (r : Ahaj.results) : list event :=
  [Printed ("Total ideas processed: " ++ str_of_int (Ahaj.total_ideas r));
   Printed ("Successfully synced: " ++ str_of_int (Ahaj.successful_syncs r));
   Printed ("Failed to sync: " ++ str_of_int (Ahaj.failed_syncs r))].

(** *** Outcomes that [except Exception] deals with *)

(** An outcome that [except Exception] deals with: a value, or an
    exception other than [SystemExit]; not a cut loop. *)
Definition tame {A} (r : result A) : Prop :=
  match r with
  | Ok _ => True
  | Raise e => e <> SystemExit
  | NoFuel => False
  end.

Definition tame_io {A} (c : io A) : Prop := forall t, tame (fst (c t)).

(** A world whose services neither end the process nor run for ever. *)
Definition benign (w : world) : Prop :=
  forall t r,
    match respond w t r with
    | Failed e => e <> SystemExit
    | Reply _ json => tame json
    end.

(** *** Events of a run *)

(** Every event that the code adds to the trace satisfies [P]. *)
Definition adds_only (P : event -> Prop) {A} (c : io A) : Prop :=
  forall t, Forall P t -> Forall P (snd (c t)).

(** An event other than the update of a target record (the [PUT] of
    [update_jira_issue]). *)
Definition not_an_update (e : event) : Prop :=
  match e with
  | Sent (Put _ _) => False
  | _ => True
  end.

(** *** Sample data and predicates of the further properties *)

(** The code adds no event that [f] selects. *)
Definition adds_no (f : event -> bool) {A} (c : io A) : Prop :=
  forall t, filter f (snd (c t)) = filter f t.

(** An upload of a file to the target service. *)
Definition is_upload (e : event) : bool :=
  match e with
  | Sent (PostFile _ _ _) => true
  | _ => false
  end.

(** The dry run of the sample services, without attachments. *)
Definition dry_config_without_attachments : Jira2AhaSync.Config :=
  Jira2AhaSync.MkConfig
    "https://co.atlassian.net" "user@co.com" "jira-token" "PROJ"
    "customfield_12345" "co.aha.io" "aha-key"
    true false true false 3 [].

(** The sample services, with a target service that refuses every update. *)
Definition refusing_updates_world : world :=
  MkWorld
    (fun t r =>
       match r with
       | Put _ _ => Failed RequestException
       | _ => respond one_attachment_world t r
       end)
    (Raise FileNotFoundError)
    false.

(** A real run, with descriptions and attachments. *)
Definition live_config : Jira2AhaSync.Config :=
  Jira2AhaSync.MkConfig
    "https://co.atlassian.net" "user@co.com" "jira-token" "PROJ"
    "customfield_12345" "co.aha.io" "aha-key"
    true true false false 3 [].

Definition sample_issue : value :=
  VDict [("key", VStr "PROJ-1");
         ("fields", VDict [("customfield_12345", VStr "IDEA-1")])].

(** A custom field of a record, as the source service gives it. *)
Definition custom_field_json (field : string * value) : value :=
  VDict [("name", VStr (fst field)); ("value", snd field)].

(** The line of the description for a custom field. *)
Definition custom_field_line (field : string * value) : value :=
  VStr ("• *" ++ fst field ++ ":* " ++ py_str (snd field)).

(** Whether a name is in the list [description_custom_fields]. *)
Definition allowed (names : list string) (field : string * value) : bool :=
  existsb (String.eqb (fst field)) names.

(** The request for one page of ideas. *)
Definition page_request (u : url) (page : Z) : request :=
  Get Aha u [("per_page", VInt 100); ("page", VInt page)].

(** The source service holds the pages [pages], numbered from [first]. *)
Definition serves (w : world) (u : url) (first : Z) (pages : list (list value))
  : Prop :=
  forall t i page,
    nth_error pages i = Some page ->
    exists content,
      respond w t (page_request u (first + Z.of_nat i))
      = Reply content (Ok (VDict [("ideas", VList page)])).

(** The requests for [n] pages from [first] on. *)
Definition page_requests (u : url) (first : Z) (n : nat) : list event :=
  map (fun i => Sent (page_request u (first + Z.of_nat i))) (seq 0 n).

(** A source service with 101 ideas: a page of 100 and a page of one. *)
Definition two_pages_world : world :=
  let idea (n : Z) : value := VDict [("id", VInt n)] in
  MkWorld
    (fun _ r =>
       match r with
       | Get Aha _ [("per_page", _); ("page", VInt 1)] =>
           Reply "" (Ok (VDict [("ideas", VList (repeat (idea 1) 100))]))
       | Get Aha _ [("per_page", _); ("page", VInt 2)] =>
           Reply "" (Ok (VDict [("ideas", VList [idea 2])]))
       | _ => Failed RequestException
       end)
    (Ok sample_config)
    true.

(** A record with two custom fields, of which the configuration maps
    three paths. *)
Definition idea_with_custom_fields : value :=
  VDict [("name", VStr "Idea A");
         ("custom_fields",
          VList [VDict [("name", VStr "Effort"); ("value", VInt 3)];
                 VDict [("name", VStr "Team"); ("value", VStr "Core")]])].


(** A record's comments, as the source service lists them. *)
Definition two_comments : value :=
  VList [VDict [("body", VStr "First");
                ("created_at", VStr "2024-01-02");
                ("created_by", VDict [("name", VStr "Ann")])];
         VDict [("body", VStr "Second")]].

(** A source service that lists the given records, whatever it is asked,
    and a target service that refuses everything. *)
Definition listing_world (ideas : list value) : world :=
  MkWorld
    (fun _ r =>
       match r with
       | Get Aha _ _ => Reply "" (Ok (VDict [("ideas", VList ideas)]))
       | _ => Failed RequestException
       end)
    (Ok sample_config)
    true.

(** Three records, the second without [id]. *)
Definition records_missing_id : list value :=
  [VDict [("id", VInt 1)]; VDict [("name", VStr "Idea 2")]; VDict [("id", VInt 3)]].



(** A record assigned to a user that the sample configuration maps. *)
Definition assigned_idea : value :=
  VDict [("name", VStr "Idea A");
         ("assigned_to", VDict [("name", VStr "Ann");
                                ("email", VStr "aha-user@company.com")])].

(* ===================================================================== *)
(** * Properties *)
(* ===================================================================== *)

(** ** Nested field resolver *)

Section Resolver.

Import Ahaj.

Lemma digit_of_uint_of_char c d k :
  digit_of c = Some k ->
  exists d', DecimalString.uint_of_char c (Some d) = Some d' /\
             forall acc, Nat.of_uint_acc d' acc
                         = Nat.of_uint_acc d (Z.to_nat k + 10 * acc)%nat.
Proof.
  destruct c as [[|] [|] [|] [|] [|] [|] [|] [|]]; cbv [digit_of]; simpl;
    intros H; try discriminate H; injection H as <-;
    eexists; (split; [reflexivity|]); intros acc; simpl;
    rewrite Nat.tail_mul_spec; f_equal; lia.
Qed.

Lemma digit_of_none_uint_of_char c d :
  digit_of c = None -> DecimalString.uint_of_char c d = None.
Proof.
  destruct d as [d|]; [|reflexivity].
  destruct c as [[|] [|] [|] [|] [|] [|] [|] [|]]; cbv [digit_of]; simpl;
    intros H; try discriminate H; reflexivity.
Qed.

(** The reader of the standard library builds the number from the last
    digit; [int_digits] accumulates from the first. *)
Lemma uint_of_string_digits s :
  all_chars is_digit s = true ->
  exists u, NilEmpty.uint_of_string s = Some u /\
            forall acc, int_digits (Z.of_nat acc) s
                        = Ok (Z.of_nat (Nat.of_uint_acc u acc)).
Proof.
  induction s as [|c s IH]; cbn [all_chars int_digits NilEmpty.uint_of_string].
  - intros _. exists Decimal.Nil. split; [reflexivity|]. intros acc. reflexivity.
  - unfold is_digit at 1. destruct (digit_of c) as [k|] eqn:Hc; [|discriminate].
    cbn [andb]. intros Hs. destruct (IH Hs) as (u & Hu & Hacc).
    rewrite Hu.
    destruct (digit_of_uint_of_char c u k Hc) as (u' & Hu' & Hval).
    exists u'. split; [exact Hu'|].
    intros acc. rewrite Hval, <- Hacc. f_equal.
    assert (0 <= k) by (revert Hc; unfold digit_of;
      destruct (_ && _) eqn:E; [|discriminate]; intros [= <-];
      apply andb_prop in E; lia).
    lia.
Qed.

Lemma uint_of_string_not_digits s :
  all_chars is_digit s = false -> NilEmpty.uint_of_string s = None.
Proof.
  induction s as [|c s IH]; simpl; [discriminate|].
  unfold is_digit at 1. destruct (digit_of c) as [k|] eqn:Hc.
  - simpl. intros Hs. rewrite (IH Hs). reflexivity.
  - intros _. apply digit_of_none_uint_of_char. exact Hc.
Qed.

(** [isdigit] and [int] agree with [segment_index]. *)
Lemma isdigit_segment_index segment :
  isdigit segment = true ->
  exists n, segment_index segment = Some n /\ py_int segment = Ok (Z.of_nat n).
Proof.
  unfold isdigit, segment_index, NilZero.uint_of_string, py_int.
  destruct segment as [|c s]; [discriminate|].
  intros H. destruct (uint_of_string_digits _ H) as (u & Hu & Hacc).
  rewrite Hu. exists (Nat.of_uint u). split; [reflexivity|].
  exact (Hacc 0%nat).
Qed.

Lemma not_isdigit_segment_index segment :
  isdigit segment = false -> segment_index segment = None.
Proof.
  unfold isdigit, segment_index, NilZero.uint_of_string.
  destruct segment as [|c s]; [reflexivity|].
  intros H. rewrite (uint_of_string_not_digits _ H). reflexivity.
Qed.

Lemma list_getitem_nat l n :
  list_getitem l (Z.of_nat n)
  = match nth_error l n with Some v => Ok v | None => Raise IndexError end.
Proof.
  unfold list_getitem.
  destruct (Z.ltb_spec (Z.of_nat n) 0) as [?|_]; [lia|].
  destruct (Z.leb_spec 0 (Z.of_nat n)) as [_|?]; [|lia].
  rewrite Nat2Z.id. simpl.
  destruct (Z.ltb_spec (Z.of_nat n) (Z.of_nat (List.length l))) as [Hlt|Hge].
  - reflexivity.
  - destruct (nth_error l n) eqn:E; [|reflexivity].
    assert (n < List.length l)%nat by (apply nth_error_Some; congruence). lia.
Qed.

(** What one turn of the loop does, in terms of [descends]. *)
Lemma nested_step_descends current segment :
  (exists v, descends current segment v /\
             nested_step current segment = Ok (Next v))
  \/ ((forall v, ~ descends current segment v) /\
      nested_step current segment = Ok (Return VNone)).
Proof.
  destruct current as [| b | z | s | l | d]; simpl;
    try (right; split; [intros v H; inversion H | reflexivity]).
  - destruct (isdigit segment) eqn:Hd.
    + destruct (isdigit_segment_index _ Hd) as (n & Hn & Hint).
      rewrite Hint. simpl. rewrite list_getitem_nat.
      destruct (nth_error l n) as [v|] eqn:Hnth; simpl.
      * left. exists v. split; [econstructor; eassumption | reflexivity].
      * right. split; [|reflexivity].
        intros v H. inversion H; subst. congruence.
    + right. split; [|reflexivity].
      intros v H. inversion H; subst.
      rewrite (not_isdigit_segment_index _ Hd) in *. discriminate.
  - unfold dict_contains, dict_getitem.
    destruct (dict_lookup segment d) as [v|] eqn:Hl; simpl.
    + left. exists v. split; [constructor; exact Hl | reflexivity].
    + right. split; [|reflexivity].
      intros v H. inversion H; subst. congruence.
Qed.





End Resolver.


(** The path of the specification, ["custom_fields.2.value"], on a record
    with three custom fields; then an index out of range, an unknown key, a
    segment that is not a number, and a scalar met on the way. *)
Example get_nested_field_value_sample :
  let record :=
    VDict [("name", VStr "Idea A");
           ("custom_fields",
            VList [VDict [("value", VInt 1)];
                   VDict [("value", VInt 2)];
                   VDict [("value", VStr "beta")]])] in
  Ahaj.get_nested_field_value record "custom_fields.2.value" = Ok (VStr "beta")
  /\ Ahaj.get_nested_field_value record "custom_fields.3.value" = Ok VNone
  /\ Ahaj.get_nested_field_value record "owner.email" = Ok VNone
  /\ Ahaj.get_nested_field_value record "custom_fields.last" = Ok VNone
  /\ Ahaj.get_nested_field_value record "name.first" = Ok VNone.
Proof. repeat split. Qed.

(** ** Status mapping *)

Section Status.

Variables (config : value) (table : dict) (default : value).
Hypothesis configured : configures_status config table default.

(** [map_status] comes to a lookup of the label that the two [get] calls
    extract from the record. *)
Lemma map_status_lookup (i ws : dict) (label : string) :
  dict_get i "workflow_status" (VDict []) = VDict ws ->
  dict_get ws "name" (VStr "New") = VStr label ->
  Ahaj.map_status config (VDict i) = Ok (dict_get table label default).
Proof.
  destruct configured as (c & fm & jira & -> & Hfm & Htable & Hjira & Hdefault).
  intros Hws Hname.
  unfold Ahaj.map_status, Ahaj.field_mappings, Ahaj.config_at. simpl.
  rewrite Hws. simpl. rewrite Hname. simpl.
  rewrite Hfm. simpl. rewrite Htable. simpl.
  unfold dict_getitem. rewrite Hjira. simpl.
  unfold dict_getitem. rewrite Hdefault. reflexivity.
Qed.

End Status.

(** C6. When the record's status label is a key of the configured status
    table, [map_status] returns exactly the table's value for that key;
    for any label that is not in the table, it returns the configured
    default target status. *)
Theorem map_status_table_or_default
        (config : value) (table : dict) (default : value)
        (i ws : dict) (label : string) :
  configures_status config table default ->
  dict_lookup "workflow_status" i = Some (VDict ws) ->
  dict_lookup "name" ws = Some (VStr label) ->
  (forall target, dict_lookup label table = Some target ->
                  Ahaj.map_status config (VDict i) = Ok target)
  /\ (dict_lookup label table = None ->
      Ahaj.map_status config (VDict i) = Ok default).
Proof.
  intros Hc Hws Hname.
  assert (H : Ahaj.map_status config (VDict i) = Ok (dict_get table label default)).
  { apply map_status_lookup with (ws := ws); [exact Hc| |];
      unfold dict_get; [rewrite Hws | rewrite Hname]; reflexivity. }
  rewrite H. unfold dict_get. split.
  - intros target ->. reflexivity.
  - intros ->. reflexivity.
Qed.

Lemma sample_config_configures_status :
  configures_status sample_config
    [("New", VStr "To Do"); ("Under review", VStr "In Progress");
     ("Approved", VStr "To Do"); ("Shipped", VStr "Done")]
    (VStr "To Do").
Proof. unfold configures_status, sample_config. repeat eexists. Qed.

(** A recognized status ("Shipped") and an unrecognized one ("Parked")
    under the sample configuration. *)
Lemma map_status_table_or_default_witness :
  Ahaj.map_status sample_config
    (VDict [("name", VStr "Idea"); ("workflow_status", VDict [("name", VStr "Shipped")])])
  = Ok (VStr "Done")
  /\ Ahaj.map_status sample_config
       (VDict [("workflow_status", VDict [("name", VStr "Parked")])])
     = Ok (VStr "To Do").
Proof.
  split.
  - refine (proj1 (map_status_table_or_default sample_config _ (VStr "To Do")
                     _ [("name", VStr "Shipped")] "Shipped"
                     sample_config_configures_status _ _) (VStr "Done") _);
      reflexivity.
  - refine (proj2 (map_status_table_or_default sample_config _ (VStr "To Do")
                     _ [("name", VStr "Parked")] "Parked"
                     sample_config_configures_status _ _) _);
      reflexivity.
Defined.

(** C10. When the record has no workflow-status object, or that object has
    no name, [map_status] takes the label to be "New": it returns the
    table's entry for "New" when there is one, and the configured default
    otherwise. *)
Theorem map_status_defaults_to_new
        (config : value) (table : dict) (default : value) (i : dict) :
  configures_status config table default ->
  (dict_lookup "workflow_status" i = None
   \/ exists ws, dict_lookup "workflow_status" i = Some (VDict ws)
                 /\ dict_lookup "name" ws = None) ->
  (forall target, dict_lookup "New" table = Some target ->
                  Ahaj.map_status config (VDict i) = Ok target)
  /\ (dict_lookup "New" table = None ->
      Ahaj.map_status config (VDict i) = Ok default).
Proof.
  intros Hc Hmissing.
  assert (H : Ahaj.map_status config (VDict i) = Ok (dict_get table "New" default)).
  { destruct Hmissing as [Hno | (ws & Hws & Hname)].
    - apply map_status_lookup with (ws := []); [exact Hc| |];
        unfold dict_get; [rewrite Hno|]; reflexivity.
    - apply map_status_lookup with (ws := ws); [exact Hc| |];
        unfold dict_get; [rewrite Hws | rewrite Hname]; reflexivity. }
  rewrite H. unfold dict_get. split.
  - intros target ->. reflexivity.
  - intros ->. reflexivity.
Qed.

(** A record without workflow status, and one whose workflow status has no
    name, under the sample configuration (where "New" maps to "To Do"). *)
Lemma map_status_defaults_to_new_witness :
  Ahaj.map_status sample_config (VDict [("name", VStr "Idea")]) = Ok (VStr "To Do")
  /\ Ahaj.map_status sample_config
       (VDict [("workflow_status", VDict [("id", VInt 7)])])
     = Ok (VStr "To Do").
Proof.
  split.
  - refine (proj1 (map_status_defaults_to_new sample_config _ (VStr "To Do")
                     [("name", VStr "Idea")]
                     sample_config_configures_status _) (VStr "To Do") _);
      [left; reflexivity | reflexivity].
  - refine (proj1 (map_status_defaults_to_new sample_config _ (VStr "To Do")
                     [("workflow_status", VDict [("id", VInt 7)])]
                     sample_config_configures_status _) (VStr "To Do") _);
      [right; eexists; split; reflexivity | reflexivity].
Defined.

(** ** Priority derivation *)

(** C3, as stated, fails: the thresholds are not taken from the caller.
    With thresholds 90 and 60 supplied, a score of 85 is in the medium
    band, yet the statements of [map_priority] give the "high" label; and
    no method of that name exists in the class. *)
Lemma map_priority_ignores_supplied_thresholds :
  Ahaj.map_priority config_with_thresholds (VDict [("score", VInt 85)])
  = Ok (VStr "High")
  /\ spec_priority 90 60 default_labels 85 = Some (VStr "Medium")
  /\ Ahaj.class_defines "map_priority" = false.
Proof. repeat split. Qed.

(** C3, amended. The statements written for [map_priority] map a score of
    80 or more to the configured "high" label, a score from 50 to 79 to
    the configured "medium" label and a lower score to the configured
    "low" label; a label missing from the table is "High", "Medium" or
    "Low".  The labels are configurable; the thresholds 80 and 50 are
    fixed. *)
Theorem map_priority_fixed_bands
        (config idea : value) (labels : dict) (score : Z) :
  configures_labels config labels ->
  has_score idea score ->
  (80 <= score ->
   Ahaj.map_priority config idea = Ok (dict_get labels "high" (VStr "High")))
  /\ (50 <= score < 80 ->
      Ahaj.map_priority config idea = Ok (dict_get labels "medium" (VStr "Medium")))
  /\ (score < 50 ->
      Ahaj.map_priority config idea = Ok (dict_get labels "low" (VStr "Low"))).
Proof.
  intros (c & fm & -> & Hfm & Hlabels) (i & -> & Hscore).
  unfold Ahaj.map_priority, Ahaj.field_mappings. simpl.
  rewrite Hscore. simpl. rewrite Hfm. simpl.
  fold default_labels. rewrite Hlabels. simpl.
  repeat split; intros H.
  - destruct (Z.leb_spec 80 score); [reflexivity | lia].
  - destruct (Z.leb_spec 80 score); [lia|]. simpl.
    destruct (Z.leb_spec 50 score); [reflexivity | lia].
  - destruct (Z.leb_spec 80 score); [lia|]. simpl.
    destruct (Z.leb_spec 50 score); [lia | reflexivity].
Qed.

(** Scores 80, 79 and 49 under a table that renames the three labels. *)
Lemma map_priority_fixed_bands_witness :
  let config :=
    VDict [("field_mappings",
            VDict [("priority_mappings",
                    VDict [("high", VStr "P1"); ("medium", VStr "P2");
                           ("low", VStr "P3")])])] in
  Ahaj.map_priority config (VDict [("score", VInt 80)]) = Ok (VStr "P1")
  /\ Ahaj.map_priority config (VDict [("score", VInt 79)]) = Ok (VStr "P2")
  /\ Ahaj.map_priority config (VDict [("score", VInt 49)]) = Ok (VStr "P3").
Proof.
  intros config.
  assert (Hc : configures_labels config
                 [("high", VStr "P1"); ("medium", VStr "P2"); ("low", VStr "P3")])
    by (repeat eexists).
  split; [|split].
  - refine (proj1 (map_priority_fixed_bands config _ _ 80 Hc _) _);
      [eexists; split; reflexivity | lia].
  - refine (proj1 (proj2 (map_priority_fixed_bands config _ _ 79 Hc _)) _);
      [eexists; split; reflexivity | lia].
  - refine (proj2 (proj2 (map_priority_fixed_bands config _ _ 49 Hc _)) _);
      [eexists; split; reflexivity | lia].
Defined.

(** ** Reasoning on effectful code *)

Section IOLemmas.

Context {A B : Type}.

Lemma bind_ok (c : io A) (k : A -> io B) t b t' :
  IO.bind c k t = (Ok b, t') ->
  exists a t1, c t = (Ok a, t1) /\ k a t1 = (Ok b, t').
Proof.
  unfold IO.bind. destruct (c t) as [[a | e |] t1]; intros H;
    try discriminate H. exists a, t1. split; [reflexivity | exact H].
Qed.

Lemma bind_raises (c : io A) (k : A -> io B) t e t' :
  c t = (Raise e, t') -> IO.bind c k t = (Raise e, t').
Proof. unfold IO.bind. intros ->. reflexivity. Qed.

Lemma bind_returns (c : io A) (k : A -> io B) t a t' :
  c t = (Ok a, t') -> IO.bind c k t = k a t'.
Proof. unfold IO.bind. intros ->. reflexivity. Qed.

Lemma lift_ok (r : result A) t a t' :
  lift r t = (Ok a, t') -> r = Ok a /\ t' = t.
Proof. unfold lift. intros [= -> ->]. split; reflexivity. Qed.

Lemma ret_ok (a : A) t a' t' :
  ret a t = (Ok a', t') -> a' = a /\ t' = t.
Proof. unfold ret. intros [= -> ->]. split; reflexivity. Qed.

Lemma call_ok defines name (body : io A) t a t' :
  Ahaj.call defines name body t = (Ok a, t') -> body t = (Ok a, t').
Proof.
  unfold Ahaj.call. destruct (defines name); [trivial|].
  unfold raise. discriminate.
Qed.

Lemma rbind_ok (r : result A) (k : A -> result B) b :
  rbind r k = Ok b -> exists a, r = Ok a /\ k a = Ok b.
Proof.
  destruct r as [a | e |]; simpl; intros H; try discriminate H.
  exists a. split; [reflexivity | exact H].
Qed.

End IOLemmas.

(** Take apart a hypothesis that says that effectful code came to [Ok]. *)
Ltac io_step H :=
  let a := fresh "x" in
  let t := fresh "t" in
  let H1 := fresh "H" in
  lazymatch type of H with
  | IO.bind _ _ _ = (Ok _, _) =>
      apply bind_ok in H; destruct H as (a & t & H1 & H)
  | Ahaj.call _ _ _ _ = (Ok _, _) => apply call_ok in H
  | lift _ _ = (Ok _, _) => apply lift_ok in H; destruct H as (H & ->)
  | ret _ _ = (Ok _, _) => apply ret_ok in H; destruct H as (-> & ->)
  end.

(** ** The payload of [create_jira_issue] *)

Section Payload.

Import Ahaj.

Lemma dict_lookup_set_same d k v :
  dict_lookup k (dict_set d k v) = Some v.
Proof.
  induction d as [|[k' v'] d IH]; simpl.
  - rewrite String.eqb_refl. reflexivity.
  - destruct (String.eqb k k') eqn:E; simpl.
    + rewrite String.eqb_refl. reflexivity.
    + rewrite E. exact IH.
Qed.

Lemma dict_lookup_set_other d k k' v :
  String.eqb k' k = false ->
  dict_lookup k (dict_set d k' v) = dict_lookup k d.
Proof.
  intros Hk. assert (Hk' : String.eqb k k' = false)
    by (rewrite String.eqb_sym; exact Hk).
  induction d as [|[k0 v0] d IH]; simpl.
  - rewrite Hk'. reflexivity.
  - destruct (String.eqb k' k0) eqn:E; simpl.
    + apply String.eqb_eq in E. subst k0. rewrite Hk'. reflexivity.
    + destruct (String.eqb k k0); [reflexivity | exact IH].
Qed.

(** A store under a key other than [k] leaves the binding of [k]. *)
Lemma dict_setitem_other d target v d' k :
  dict_setitem d target v = Ok d' ->
  target_is k target = false ->
  dict_lookup k d' = dict_lookup k d.
Proof.
  unfold dict_setitem, target_is.
  destruct (json_key target) as [s | e |]; intros H Hk; try discriminate H.
  injection H as <-. apply dict_lookup_set_other. exact Hk.
Qed.



(** The loop over the custom fields leaves the binding of a key that no
    custom field is mapped onto. *)
Lemma custom_fields_loop_other defines idea k items :
  existsb (fun pt => target_is k (snd pt)) items = false ->
  forall fields t fields' t',
    custom_fields_loop defines idea items fields t = (Ok fields', t') ->
    dict_lookup k fields' = dict_lookup k fields.
Proof.
  induction items as [|[path target] items IH]; simpl; intros Hno fields t fields' t' H.
  - apply ret_ok in H. destruct H as (-> & _). reflexivity.
  - apply orb_false_elim in Hno. destruct Hno as (Htarget & Hno).
    io_step H. io_step H0. io_step H0.
    destruct x as [| b | z | s | l | d];
      try (io_step H; io_step H1;
           rewrite (IH Hno _ _ _ _ H);
           eapply dict_setitem_other; eassumption).
    apply (IH Hno _ _ _ _ H).
Qed.

End Payload.

Section PayloadLabels.

Import Ahaj.




End PayloadLabels.



(** ** The example of the specification *)



(** ** Comment aggregator *)

Section Comments.

Import Ahaj.






End Comments.



(** ** Exit status *)

(** C8, as stated, fails. The product id is required and the sample
    configuration has none: run without arguments, [main] of [Ahaj.py] logs
    an error and returns, so the status is 0, and nothing is printed.
    With none of the required variables set, [main] of [Jira2AhaSync.py]
    logs the missing names and returns as well. *)
Lemma missing_configuration_exits_zero :
  (exit_status (Ahaj.main Ahaj.class_defines sample_file_world 1 ["Ahaj.py"] [])
   = Ok 0
   /\ snd (Ahaj.main Ahaj.class_defines sample_file_world 1 ["Ahaj.py"] [])
      = [Logged "Product ID not provided. Use: python script.py <product_id>"])
  /\ (Jira2AhaSync.missing_fields env_defaults
      = ["jira_username"; "jira_token"; "jira_project_key"; "aha_api_key"]
      /\ exit_status (Jira2AhaSync.main silent_world (Ok env_defaults)
                        no_arguments [])
         = Ok 0).
Proof. repeat split. Qed.

Section ExitStatus.

Import Ahaj.

Lemma for_each_emit {A} (f : A -> event) (l : list A) t :
  for_each l (fun x => emit (f x)) t = (Ok tt, (t ++ map f l)%list).
Proof.
  revert t. induction l as [|x l IH]; intros t; cbn [for_each map].
  - unfold ret. rewrite app_nil_r. reflexivity.
  - unfold IO.bind, emit at 1. rewrite IH. rewrite <- app_assoc. reflexivity.
Qed.

Lemma print_summary_lines r t :
  exists head tail,
    print_summary r t = (Ok tt, (t ++ head ++ count_lines r ++ tail)%list).
Proof.
  exists [Printed (newline ++ rule); Printed "SYNC SUMMARY"; Printed rule].
  unfold print_summary, count_lines.
  destruct (errors r) as [|e es] eqn:E.
  - exists []. unfold IO.bind, emit, ret. cbn.
    rewrite <- !app_assoc. reflexivity.
  - exists (Printed (newline ++ "Errors encountered:") :: map PrintedReport (e :: es)).
    unfold IO.bind. unfold emit at 1 2 3 4 5 6 7.
    rewrite for_each_emit. rewrite <- !app_assoc. reflexivity.
Qed.

(** In sync mode [main] is its [try] block under [except Exception]. *)
Lemma main_sync_mode defines w fuel argv :
  sync_mode argv ->
  main defines w fuel argv
  = catch (main_sync defines w fuel argv) any_exception (fun _ => raise SystemExit).
Proof.
  unfold sync_mode, main, first_argument_is.
  destruct argv as [|a0 [|arg rest]]; try reflexivity.
  intros (H1 & H2).
  apply String.eqb_neq in H1, H2. rewrite H1, H2. reflexivity.
Qed.

End ExitStatus.

Section MainTheorem.

Import Ahaj.

Lemma choose_product argv config t :
  match argv with
  | _ :: arg :: _ => ret (VStr arg)
  | _ => IO.bind (lift (py_get config "aha" (VDict [])))
                 (fun aha => lift (py_get aha "product_id" VNone))
  end t = (chosen_product argv config, t).
Proof.
  unfold chosen_product, IO.bind, lift, ret.
  destruct argv as [|a0 [|arg rest]]; try reflexivity;
    destruct (py_get config "aha" (VDict [])); reflexivity.
Qed.

(** What the [try] block of [main] comes to once the configuration is
    loaded and the product chosen. *)
Lemma main_sync_loaded defines w fuel argv config p t :
  config_file w = Ok config ->
  chosen_product argv config = Ok p ->
  main_sync defines w fuel argv t
  = (if negb (truthy p)
     then emit (Logged "Product ID not provided. Use: python script.py <product_id>")
     else IO.bind (lift (__init__ config))
            (fun _ => IO.bind (call defines "sync_ideas"
                                    (sync_ideas defines w config fuel p))
                              (fun results => print_summary results))) t.
Proof.
  intros Hfile Hp. unfold main_sync, load_config.
  rewrite (bind_returns _ _ t config t) by (unfold lift; rewrite Hfile; reflexivity).
  rewrite (bind_returns _ _ t p t) by (rewrite choose_product, Hp; reflexivity).
  reflexivity.
Qed.

End MainTheorem.

(** C8, amended. Run to sync, [main] of [Ahaj.py] exits with status 1 when
    the configuration file cannot be loaded and when building the sync tool
    raises (a credential is missing); when no product id is given it logs
    an error and returns, with status 0 and no summary; otherwise it runs
    the sync, prints the summary with the total, synced and failed counts,
    and exits with status 0.  [main] of [Jira2AhaSync.py] returns normally,
    after logging the missing names, when a required setting is empty. *)
Theorem main_exit_status defines w fuel argv t :
  sync_mode argv ->
  (forall e, config_file w = Raise e ->
             exit_status (Ahaj.main defines w fuel argv t) = Ok 1
             /\ snd (Ahaj.main defines w fuel argv t) = t)
  /\ (forall config p,
         config_file w = Ok config ->
         chosen_product argv config = Ok p ->
         truthy p = false ->
         exit_status (Ahaj.main defines w fuel argv t) = Ok 0
         /\ snd (Ahaj.main defines w fuel argv t)
            = (t ++ [Logged "Product ID not provided. Use: python script.py <product_id>"])%list)
  /\ (forall config p e,
         config_file w = Ok config ->
         chosen_product argv config = Ok p ->
         truthy p = true ->
         Ahaj.__init__ config = Raise e ->
         exit_status (Ahaj.main defines w fuel argv t) = Ok 1)
  /\ (forall config p r t1,
         config_file w = Ok config ->
         chosen_product argv config = Ok p ->
         truthy p = true ->
         Ahaj.__init__ config = Ok tt ->
         defines "sync_ideas" = true ->
         Ahaj.sync_ideas defines w config fuel p t = (Ok r, t1) ->
         exit_status (Ahaj.main defines w fuel argv t) = Ok 0
         /\ exists head tail,
              snd (Ahaj.main defines w fuel argv t)
              = (t1 ++ head ++ count_lines r ++ tail)%list)
  /\ (forall config args,
         Jira2AhaSync.missing_fields config <> [] ->
         exit_status (Jira2AhaSync.main w (Ok config) args t) = Ok 0
         /\ filter is_write (snd (Jira2AhaSync.main w (Ok config) args t))
            = filter is_write t).
Proof.
  intros Hmode. rewrite (main_sync_mode defines w fuel argv Hmode).
  split; [|split; [|split; [|split]]].
  - intros e Hfile. unfold catch, Ahaj.main_sync, Ahaj.load_config.
    rewrite (bind_raises _ _ t e t) by (unfold lift; rewrite Hfile; reflexivity).
    destruct (any_exception e); split; reflexivity.
  - intros config p Hfile Hp Hfalse. unfold catch.
    rewrite (main_sync_loaded defines w fuel argv config p t Hfile Hp).
    rewrite Hfalse. split; reflexivity.
  - intros config p e Hfile Hp Htrue Hinit. unfold catch.
    rewrite (main_sync_loaded defines w fuel argv config p t Hfile Hp).
    rewrite Htrue. cbn [negb].
    rewrite (bind_raises _ _ t e t) by (unfold lift; rewrite Hinit; reflexivity).
    destruct (any_exception e); reflexivity.
  - intros config p r t1 Hfile Hp Htrue Hinit Hdef Hsync. unfold catch.
    rewrite (main_sync_loaded defines w fuel argv config p t Hfile Hp).
    rewrite Htrue. cbn [negb].
    rewrite (bind_returns _ _ t tt t) by (unfold lift; rewrite Hinit; reflexivity).
    rewrite (bind_returns _ _ t r t1)
      by (unfold Ahaj.call; rewrite Hdef; exact Hsync).
    destruct (print_summary_lines r t1) as (head & tail & ->).
    split; [reflexivity|]. exists head, tail. reflexivity.
  - intros config args Hmissing.
    unfold Jira2AhaSync.main.
    rewrite (bind_returns _ _ t config t) by reflexivity.
    cbv zeta.
    set (c := if Jira2AhaSync.arg_dry_run args then _ else _).
    assert (Hc : Jira2AhaSync.missing_fields c = Jira2AhaSync.missing_fields config)
      by (subst c; destruct (Jira2AhaSync.arg_dry_run args),
                            (Jira2AhaSync.arg_test args); reflexivity).
    rewrite Hc.
    destruct (Jira2AhaSync.missing_fields config) as [|m ms]; [congruence|].
    unfold emit. cbn [fst snd exit_status]. split; [reflexivity|].
    rewrite filter_app. cbn [filter is_write]. apply app_nil_r.
Qed.

(** A run over the three records (status 0, with the three counts), a run
    without configuration file (status 1), and a run without product id
    (status 0). *)
Lemma main_exit_status_witness :
  (exit_status (Ahaj.main Ahaj.repaired_defines three_ideas_world 2
                  ["Ahaj.py"; "P1"] []) = Ok 0
   /\ exists t1 head tail,
        snd (Ahaj.main Ahaj.repaired_defines three_ideas_world 2
               ["Ahaj.py"; "P1"] [])
        = (t1 ++ head ++ count_lines (Ahaj.MkResults 3 2 1 []) ++ tail)%list)
  /\ exit_status (Ahaj.main Ahaj.class_defines silent_world 2 ["Ahaj.py"; "P1"] [])
     = Ok 1
  /\ exit_status (Ahaj.main Ahaj.class_defines sample_file_world 2 ["Ahaj.py"] [])
     = Ok 0.
Proof.
  assert (Hmode : sync_mode ["Ahaj.py"; "P1"])
    by (split; discriminate).
  split; [|split].
  - pose proof (proj1 (proj2 (proj2 (proj2
        (main_exit_status Ahaj.repaired_defines three_ideas_world 2
           ["Ahaj.py"; "P1"] [] Hmode))))
        sample_config (VStr "P1") (Ahaj.MkResults 3 2 1 [])
        (snd (Ahaj.sync_ideas Ahaj.repaired_defines three_ideas_world
                sample_config 2 (VStr "P1") []))
        eq_refl eq_refl eq_refl eq_refl eq_refl) as H.
    destruct H as (Hstatus & head & tail & Htrace); [vm_compute; reflexivity|].
    split; [exact Hstatus|]. eexists. exists head, tail. exact Htrace.
  - exact (proj1 (proj1 (main_exit_status Ahaj.class_defines silent_world 2
                           ["Ahaj.py"; "P1"] [] Hmode)
                    FileNotFoundError eq_refl)).
  - exact (proj1 (proj1 (proj2 (main_exit_status Ahaj.class_defines
                                  sample_file_world 2 ["Ahaj.py"] [] I))
                    sample_config VNone eq_refl eq_refl eq_refl)).
Defined.

(** ** Loading [Jira2AhaSync.py] *)

(** In the class body of [Config] the field [aha_domain], which has no
    default, follows [jira_aha_reference_field], which has one: the
    [@dataclass] decorator raises [TypeError] while the module is loaded,
    before [main] is reached.  The properties above that concern
    [JiraAhaSync] and [main] are about these as they are written. *)
Lemma script_fails_to_load w loaded args t :
  Jira2AhaSync.script w loaded args t = (Raise TypeError, t).
Proof. reflexivity. Qed.

(** ** Python primitives on sample values *)

Example split_sample :
  split "." "custom_fields.2.value" = ["custom_fields"; "2"; "value"]
  /\ split "." "" = [""]
  /\ split "." "a..b" = ["a"; ""; "b"].
Proof. repeat split. Qed.

Example isdigit_sample :
  isdigit "007" = true /\ py_int "007" = Ok 7
  /\ isdigit "" = false /\ isdigit "-1" = false /\ isdigit "2a" = false.
Proof. repeat split. Qed.

Example py_str_sample :
  py_str (VList [VInt 1; VStr "a"; VNone; VBool true; VDict [("k", VList [])]])
  = "[1, 'a', None, True, {'k': []}]"
  /\ py_str (VStr "a") = "a"
  /\ py_str (VInt (-12)) = "-12".
Proof. repeat split. Qed.

Example list_getitem_sample :
  list_getitem [VInt 10; VInt 20] 1 = Ok (VInt 20)
  /\ list_getitem [VInt 10; VInt 20] (-1) = Ok (VInt 20)
  /\ list_getitem [VInt 10; VInt 20] 2 = Raise IndexError.
Proof. repeat split. Qed.

(** ** What the handling of one record can come to *)

Create HintDb tame.

Section Tame.

Import Ahaj.

Lemma tame_ok {A} (a : A) : tame (Ok a).
Proof. exact I. Qed.

Lemma tame_rbind {A B} (r : result A) (k : A -> result B) :
  tame r -> (forall a, tame (k a)) -> tame (rbind r k).
Proof. destruct r; simpl; auto. Qed.

Lemma tame_rcatch {A} (body : result A) caught handler :
  tame body -> (forall e, tame (handler e)) -> tame (rcatch body caught handler).
Proof.
  destruct body as [a | e |]; simpl; auto.
  intros He Hh. destruct (caught e); auto.
Qed.

End Tame.

#[local] Hint Resolve tame_ok : tame.

(** Settle the tameness of a pure expression by cases on what it
    inspects. *)
Ltac tame_cases :=
  repeat first
    [ exact I
    | discriminate
    | assumption
    | progress intros
    | lazymatch goal with
      | |- tame (rbind _ _) => apply tame_rbind
      | |- tame (rcatch _ _ _) => apply tame_rcatch
      | |- tame (match ?x with _ => _ end) => destruct x
      | |- tame (if ?b then _ else _) => destruct b
      | |- tame (let _ := _ in _) => cbv zeta
      end
    | solve [auto with tame]
    | progress cbn [tame] ].

Section TamePrimitives.

Import Ahaj.

Lemma tame_dict_getitem d k : tame (dict_getitem d k).
Proof. unfold dict_getitem. tame_cases. Qed.

Lemma tame_py_get x k default : tame (py_get x k default).
Proof. unfold py_get. tame_cases. Qed.

Lemma tame_list_getitem l i : tame (list_getitem l i).
Proof. unfold list_getitem. tame_cases. Qed.

Lemma tame_int_digits s : forall acc, tame (int_digits acc s).
Proof. induction s as [|c s IH]; intros acc; cbn [int_digits]; tame_cases. Qed.

Lemma tame_py_int s : tame (py_int s).
Proof. unfold py_int. destruct s; [tame_cases | apply tame_int_digits]. Qed.

End TamePrimitives.

#[local] Hint Resolve tame_dict_getitem tame_py_get tame_list_getitem
  tame_py_int : tame.

Section TamePrimitives2.

Import Ahaj.

Lemma tame_py_getitem c i : tame (py_getitem c i).
Proof. unfold py_getitem. tame_cases. Qed.

Lemma tame_py_in x c : tame (py_in x c).
Proof. unfold py_in. tame_cases. Qed.

Lemma tame_py_iter c : tame (py_iter c).
Proof. unfold py_iter. tame_cases. Qed.

Lemma tame_py_ge v n : tame (py_ge v n).
Proof. unfold py_ge. tame_cases. Qed.

Lemma tame_json_key k : tame (json_key k).
Proof. unfold json_key. tame_cases. Qed.

Lemma tame_dict_setitem d k v : tame (dict_setitem d k v).
Proof.
  unfold dict_setitem. pose proof (tame_json_key k) as H.
  destruct (json_key k); tame_cases.
Qed.

Lemma tame_py_get_key x k default : tame (py_get_key x k default).
Proof. unfold py_get_key. tame_cases. Qed.

Lemma tame_strings_of items : tame (strings_of items).
Proof.
  induction items as [|x items IH]; cbn [strings_of]; [exact I|].
  destruct x; tame_cases.
Qed.

Lemma tame_comprehension {A} (f : value -> result A) xs :
  (forall x, tame (f x)) -> tame (comprehension f xs).
Proof.
  intros Hf. induction xs as [|x xs IH]; cbn [comprehension]; tame_cases.
Qed.

Lemma tame_nested_step current key : tame (nested_step current key).
Proof. unfold nested_step. tame_cases. Qed.

End TamePrimitives2.

#[local] Hint Resolve tame_py_getitem tame_py_in tame_py_iter tame_py_ge
  tame_json_key tame_dict_setitem tame_py_get_key tame_strings_of
  tame_comprehension tame_nested_step : tame.

Section TamePure.

Import Ahaj.

Variable config : value.

Lemma tame_config_at a b : tame (config_at config a b).
Proof. unfold config_at. tame_cases. Qed.

Lemma tame_field_mappings : tame (field_mappings config).
Proof. unfold field_mappings. tame_cases. Qed.

Lemma tame_nested_loop keys : forall current, tame (nested_loop current keys).
Proof.
  induction keys as [|key keys IH]; intros current; cbn [nested_loop]; tame_cases.
Qed.

Lemma tame_get_nested_field_value data path :
  tame (get_nested_field_value data path).
Proof. apply tame_nested_loop. Qed.

Lemma tame_join_values sep items : tame (join_values sep items).
Proof. unfold join_values. tame_cases. Qed.

Lemma tame_comment_block c : tame (comment_block c).
Proof. unfold comment_block. tame_cases. Qed.

Lemma tame_comment_loop cs : forall formatted, tame (comment_loop formatted cs).
Proof.
  induction cs as [|c cs IH]; intros formatted; cbn [comment_loop];
    [exact I|].
  apply tame_rbind; [apply tame_comment_block | intros; apply IH].
Qed.

Lemma tame_format_comments_for_jira comments :
  tame (format_comments_for_jira comments).
Proof.
  unfold format_comments_for_jira.
  destruct (negb (truthy comments)); [exact I|].
  apply tame_rbind; [auto with tame | intros cs].
  apply tame_rbind; [apply tame_comment_loop | intros; apply tame_join_values].
Qed.

Lemma tame_description_custom_fields selected fields :
  forall parts, tame (description_custom_fields selected fields parts).
Proof.
  induction fields as [|field fields IH]; intros parts;
    cbn [description_custom_fields]; [exact I|].
  apply tame_rbind; [auto with tame | intros name].
  apply tame_rbind; [auto with tame | intros chosen].
  destruct chosen; [|apply IH].
  apply tame_rbind; [auto with tame | intros; apply IH].
Qed.

Lemma tame_category_label cat : tame (category_label cat).
Proof. unfold category_label. tame_cases. Qed.

Lemma tame_date_part d : tame (date_part d).
Proof. unfold date_part. tame_cases. Qed.

Lemma tame_and_then a b : tame b -> tame (and_then a b).
Proof. unfold and_then. tame_cases. Qed.

End TamePure.

#[local] Hint Resolve tame_config_at tame_field_mappings
  tame_get_nested_field_value tame_join_values tame_format_comments_for_jira
  tame_description_custom_fields tame_category_label tame_date_part
  tame_and_then : tame.

Section TamePure2.

Import Ahaj.

Variable config : value.

Lemma tame_format_description idea : tame (format_description config idea).
Proof. unfold format_description. tame_cases. Qed.

Lemma tame_map_priority idea : tame (map_priority config idea).
Proof. unfold map_priority. tame_cases. Qed.

End TamePure2.

#[local] Hint Resolve tame_format_description tame_map_priority : tame.

Section TameIO.

Import Ahaj.

Lemma tame_io_ret {A} (a : A) : tame_io (ret a).
Proof. intros t. exact I. Qed.

Lemma tame_io_raise {A} e : e <> SystemExit -> tame_io (@raise A e).
Proof. intros He t. exact He. Qed.

Lemma tame_io_lift {A} (r : result A) : tame r -> tame_io (lift r).
Proof. intros Hr t. exact Hr. Qed.

Lemma tame_io_emit e : tame_io (emit e).
Proof. intros t. exact I. Qed.

Lemma tame_io_bind {A B} (c : io A) (k : A -> io B) :
  tame_io c -> (forall a, tame_io (k a)) -> tame_io (IO.bind c k).
Proof.
  intros Hc Hk t. unfold IO.bind. specialize (Hc t).
  destruct (c t) as [[a | e |] t']; cbn [fst] in *; auto. apply Hk.
Qed.

Lemma tame_io_catch {A} (body : io A) caught handler :
  tame_io body -> (forall e, e <> SystemExit -> tame_io (handler e)) ->
  tame_io (catch body caught handler).
Proof.
  intros Hb Hh t. unfold catch. specialize (Hb t).
  destruct (body t) as [[a | e |] t']; cbn [fst] in *; auto.
  destruct (caught e); [apply Hh; exact Hb | exact Hb].
Qed.

Lemma tame_io_call {A} defines name (body : io A) :
  tame_io body -> tame_io (call defines name body).
Proof.
  intros Hb. unfold call. destruct (defines name); [exact Hb|].
  apply tame_io_raise. discriminate.
Qed.

Lemma tame_io_send_checked w r : benign w -> tame_io (send_checked w r).
Proof.
  intros Hw t. unfold send_checked. specialize (Hw t r).
  destruct (respond w t r); cbn [fst]; [exact Hw | exact I].
Qed.

Lemma tame_io_send_json w r : benign w -> tame_io (send_json w r).
Proof.
  intros Hw t. unfold send_json, send_checked, IO.bind, lift.
  specialize (Hw t r). destruct (respond w t r); cbn [fst snd]; exact Hw.
Qed.

Lemma tame_io_for_each {A} (l : list A) body :
  (forall x, tame_io (body x)) -> tame_io (for_each l body).
Proof.
  intros Hb. induction l as [|x l IH]; cbn [for_each].
  - apply tame_io_ret.
  - apply tame_io_bind; [apply Hb | intros; exact IH].
Qed.

End TameIO.

#[local] Hint Resolve tame_io_ret tame_io_emit tame_io_for_each : tame.

(** The same by cases, for effectful code. *)
Ltac tame_io_cases :=
  repeat first
    [ assumption
    | progress intros
    | lazymatch goal with
      | |- tame_io (ret _) => apply tame_io_ret
      | |- tame_io (emit _) => apply tame_io_emit
      | |- tame_io (IO.bind _ _) => apply tame_io_bind
      | |- tame_io (catch _ _ _) => apply tame_io_catch
      | |- tame_io (Ahaj.call _ _ _) => apply tame_io_call
      | |- tame_io (send_json _ _) => apply tame_io_send_json
      | |- tame_io (send_checked _ _) => apply tame_io_send_checked
      | |- tame_io (raise _) =>
          apply tame_io_raise; first [discriminate | assumption]
      | |- tame_io (lift _) => apply tame_io_lift; tame_cases
      | |- tame_io (match ?x with _ => _ end) => destruct x
      | |- tame_io (if ?b then _ else _) => destruct b
      | |- tame_io (let _ := _ in _) => cbv zeta
      end
    | solve [auto with tame] ].

Section TameMethods.

Import Ahaj.

Variable defines : string -> bool.
Variable w : world.
Variable config : value.
Hypothesis Hw : benign w.

Lemma tame_find_jira_user_by_email email :
  tame_io (find_jira_user_by_email defines w config email).
Proof. unfold find_jira_user_by_email, _rate_limit_jira. tame_io_cases. Qed.

Lemma tame_map_assignee idea : tame_io (map_assignee defines w config idea).
Proof.
  unfold map_assignee. pose proof tame_find_jira_user_by_email. tame_io_cases.
Qed.

Lemma tame_add_comment_to_jira_issue issue_key text :
  tame_io (add_comment_to_jira_issue defines w config issue_key text).
Proof. unfold add_comment_to_jira_issue, _rate_limit_jira. tame_io_cases. Qed.

Lemma tame_add_web_link_to_jira_issue issue_key link title :
  tame_io (add_web_link_to_jira_issue defines w config issue_key link title).
Proof. unfold add_web_link_to_jira_issue, _rate_limit_jira. tame_io_cases. Qed.

Lemma tame_custom_fields_loop idea items :
  forall fields, tame_io (custom_fields_loop defines idea items fields).
Proof.
  induction items as [|[path target] items IH]; intros fields;
    cbn [custom_fields_loop]; tame_io_cases.
Qed.

Lemma tame_build_fields idea : tame_io (build_fields defines w config idea).
Proof.
  unfold build_fields.
  pose proof tame_map_assignee. pose proof tame_custom_fields_loop.
  tame_io_cases.
Qed.

Lemma tame_create_jira_issue idea :
  tame_io (create_jira_issue defines w config idea).
Proof.
  unfold create_jira_issue, _rate_limit_jira.
  pose proof tame_build_fields. pose proof tame_add_web_link_to_jira_issue.
  tame_io_cases.
Qed.

Lemma tame_fetch_idea_comments idea_id :
  tame_io (fetch_idea_comments defines w config idea_id).
Proof. unfold fetch_idea_comments, _rate_limit_aha. tame_io_cases. Qed.

Lemma tame_fetch_idea_details idea_id :
  tame_io (fetch_idea_details defines w config idea_id).
Proof. unfold fetch_idea_details, _rate_limit_aha. tame_io_cases. Qed.

End TameMethods.

Section RecordBoundary.

Import Ahaj.

Variable defines : string -> bool.
Variable w : world.
Variable config : value.
Hypothesis Hw : benign w.

Lemma any_exception_tame e : e <> SystemExit -> any_exception e = true.
Proof. destruct e; intros H; try reflexivity. congruence. Qed.

(** Whatever happens while one record is handled, [sync_one] returns, and
    it counts the record once: as synced or as failed. *)
Lemma sync_one_counts idea_id r t :
  exists r' t',
    sync_one defines w config idea_id r t = (Ok r', t')
    /\ total_ideas r' = total_ideas r
    /\ successful_syncs r' + failed_syncs r'
       = successful_syncs r + failed_syncs r + 1.
Proof.
  unfold sync_one.
  match goal with
  | |- context [catch ?b _ _] => set (body := b)
  end.
  assert (Hbody : tame_io body).
  { subst body.
    pose proof (tame_fetch_idea_details defines w config Hw).
    pose proof (tame_fetch_idea_comments defines w config Hw).
    pose proof (tame_create_jira_issue defines w config Hw).
    pose proof (tame_add_comment_to_jira_issue defines w config Hw).
    tame_io_cases. }
  unfold catch. specialize (Hbody t).
  destruct (body t) as [[r1 | e |] t1] eqn:E; cbn [fst] in Hbody.
  - exists r1, t1. split; [reflexivity|].
    subst body.
    repeat match goal with
           | H : _ = (Ok _, _) |- _ => io_step H
           end.
    match goal with
    | H : (if truthy ?k then _ else _) _ = (Ok r1, t1) |- _ =>
        destruct (truthy k)
    end.
    + repeat match goal with
             | H : _ = (Ok _, _) |- _ => io_step H
             end.
      cbn [count_success total_ideas successful_syncs failed_syncs].
      split; [reflexivity | lia].
    + repeat match goal with
             | H : _ = (Ok _, _) |- _ => io_step H
             end.
      cbn [count_failure total_ideas successful_syncs failed_syncs].
      split; [reflexivity | lia].
  - rewrite (any_exception_tame e Hbody). eexists. eexists.
    split; [reflexivity|].
    cbn [add_error count_failure total_ideas successful_syncs failed_syncs].
    split; [reflexivity | lia].
  - contradiction.
Qed.

(** The loop handles every record that has an [id]: a failure on one does
    not keep it from the next, and each one is counted. *)
Lemma sync_loop_counts ideas :
  Forall (fun idea => exists id, py_getitem idea (VStr "id") = Ok id) ideas ->
  forall r t,
  exists r' t',
    sync_loop defines w config ideas r t = ((r', Ok tt), t')
    /\ total_ideas r' = total_ideas r
    /\ successful_syncs r' + failed_syncs r'
       = successful_syncs r + failed_syncs r + Z.of_nat (List.length ideas).
Proof.
  induction 1 as [|idea ideas (id & Hid) _ IH]; intros r t.
  - exists r, t. cbn [sync_loop List.length Z.of_nat].
    split; [reflexivity|]. split; [reflexivity | lia].
  - cbn [sync_loop]. rewrite Hid.
    destruct (sync_one_counts id r t) as (r1 & t1 & -> & Htotal & Hcount).
    destruct (IH r1 t1) as (r' & t' & -> & Htotal' & Hcount').
    exists r', t'. split; [reflexivity|].
    split; [congruence|]. cbn [List.length]. lia.
Qed.

End RecordBoundary.

(** ** A run over three records *)

Section EveryRecordFails.

Import Ahaj.

(** As the class stands, the loop of [sync_ideas] counts every record that
    has an [id] as failed, whatever the services answer, and sends
    nothing. *)
Lemma sync_loop_every_record_fails w config ideas :
  Forall (fun idea => exists id, py_getitem idea (VStr "id") = Ok id) ideas ->
  forall r t,
  exists reports,
    sync_loop class_defines w config ideas r t
    = ((MkResults (total_ideas r) (successful_syncs r)
                  (failed_syncs r + Z.of_nat (List.length ideas))
                  (errors r ++ reports)%list, Ok tt), t)
    /\ List.length reports = List.length ideas.
Proof.
  induction 1 as [|idea ideas (id & Hid) _ IH]; intros r t.
  - exists []. cbn [sync_loop List.length Z.of_nat].
    rewrite Z.add_0_r, app_nil_r. destruct r; split; reflexivity.
  - cbn [sync_loop]. rewrite Hid.
    change (sync_one class_defines w config id r t)
      with (Ok (add_error (IdeaError id AttributeError) (count_failure r)), t).
    destruct (IH (add_error (IdeaError id AttributeError) (count_failure r)) t)
      as (reports & -> & Hlen).
    exists (IdeaError id AttributeError :: reports).
    split; [|cbn [List.length]; rewrite Hlen; reflexivity].
    cbn [add_error count_failure total_ideas successful_syncs failed_syncs errors
         List.length].
    rewrite <- app_assoc. cbn [app].
    do 3 f_equal. lia.
Qed.

End EveryRecordFails.

(** C2. Under services that answer or fail, the loop of [sync_ideas]
    handles every record, whatever happens to the others, and counts each
    one as synced or as failed.  At a run over three records of which only
    the second is refused by the target service the counts are not those of
    the claim, though.  As the class stands, every record fails:
    [self.fetch_idea_details] does not resolve, so each turn of the loop
    ends in its [except Exception] clause, whatever the services answer;
    the summary is 0 synced, 3 failed, 3 in total.  With the two missing
    [def] lines restored the same run gives what the claim says: 2 synced,
    1 failed, 3 in total.  (One page of ideas is read: any positive bound on
    the pages will do.) *)
Theorem sync_ideas_three_records :
  (forall defines w config ideas r t,
      benign w ->
      Forall (fun idea => exists id, py_getitem idea (VStr "id") = Ok id) ideas ->
      exists r' t',
        Ahaj.sync_loop defines w config ideas r t = ((r', Ok tt), t')
        /\ Ahaj.successful_syncs r' + Ahaj.failed_syncs r'
           = Ahaj.successful_syncs r + Ahaj.failed_syncs r
             + Z.of_nat (List.length ideas))
  /\ (forall w config idea_id r t,
      Ahaj.sync_one Ahaj.class_defines w config idea_id r t
      = (Ok (Ahaj.add_error (IdeaError idea_id AttributeError)
                            (Ahaj.count_failure r)), t))
  /\ (forall fuel,
         fst (Ahaj.sync_ideas Ahaj.class_defines three_ideas_world sample_config
                (S fuel) (VStr "P1") [])
         = Ok (Ahaj.MkResults 3 0 3 [IdeaError (VInt 1) AttributeError;
                                     IdeaError (VInt 2) AttributeError;
                                     IdeaError (VInt 3) AttributeError]))
  /\ (forall fuel,
         fst (Ahaj.sync_ideas Ahaj.repaired_defines three_ideas_world sample_config
                (S fuel) (VStr "P1") [])
         = Ok (Ahaj.MkResults 3 2 1 [])).
Proof.
  split; [|split; [|split]].
  - intros defines w config ideas r t Hw Hids.
    destruct (sync_loop_counts defines w config Hw ideas Hids r t)
      as (r' & t' & Hloop & _ & Hcount).
    exists r', t'. split; assumption.
  - intros w config idea_id r t. reflexivity.
  - intros fuel. vm_compute. reflexivity.
  - intros fuel. vm_compute. reflexivity.
Qed.

(** ** What a dry run sends *)

Section AddsOnly.

Variable P : event -> Prop.

Lemma adds_only_ret {A} (a : A) : adds_only P (ret a).
Proof. intros t Ht. exact Ht. Qed.

Lemma adds_only_raise {A} e : adds_only P (@raise A e).
Proof. intros t Ht. exact Ht. Qed.

Lemma adds_only_lift {A} (r : result A) : adds_only P (lift r).
Proof. intros t Ht. exact Ht. Qed.

Lemma adds_only_emit e : P e -> adds_only P (emit e).
Proof.
  intros He t Ht. unfold emit. cbn [snd].
  apply Forall_app. split; [exact Ht | repeat constructor; exact He].
Qed.

Lemma adds_only_bind {A B} (c : io A) (k : A -> io B) :
  adds_only P c -> (forall a, adds_only P (k a)) -> adds_only P (IO.bind c k).
Proof.
  intros Hc Hk t Ht. unfold IO.bind. specialize (Hc t Ht).
  destruct (c t) as [[a | e |] t']; cbn [snd] in *; auto. apply Hk. exact Hc.
Qed.

Lemma adds_only_catch {A} (body : io A) caught handler :
  adds_only P body -> (forall e, adds_only P (handler e)) ->
  adds_only P (catch body caught handler).
Proof.
  intros Hb Hh t Ht. unfold catch. specialize (Hb t Ht).
  destruct (body t) as [[a | e |] t']; cbn [snd] in *; auto.
  destruct (caught e); [apply Hh; exact Hb | exact Hb].
Qed.

Lemma adds_only_send_checked w r : P (Sent r) -> adds_only P (send_checked w r).
Proof.
  intros Hr t Ht. unfold send_checked.
  destruct (respond w t r); cbn [snd];
    (apply Forall_app; split; [exact Ht | repeat constructor; exact Hr]).
Qed.

Lemma adds_only_send_json w r : P (Sent r) -> adds_only P (send_json w r).
Proof.
  intros Hr. unfold send_json.
  apply adds_only_bind; [apply adds_only_send_checked; exact Hr|].
  intros a. apply adds_only_lift.
Qed.

Lemma adds_only_for_each {A} (l : list A) body :
  (forall x, adds_only P (body x)) -> adds_only P (for_each l body).
Proof.
  intros Hb. induction l as [|x l IH]; cbn [for_each].
  - apply adds_only_ret.
  - apply adds_only_bind; [apply Hb | intros; exact IH].
Qed.

End AddsOnly.

(** Follow the structure of effectful code; what is left is to show that
    each event added is allowed. *)
Ltac adds_only_cases :=
  repeat first
    [ assumption
    | progress intros
    | lazymatch goal with
      | |- adds_only _ (ret _) => apply adds_only_ret
      | |- adds_only _ (raise _) => apply adds_only_raise
      | |- adds_only _ (lift _) => apply adds_only_lift
      | |- adds_only _ (emit _) => apply adds_only_emit; exact I
      | |- adds_only _ (IO.bind _ _) => apply adds_only_bind
      | |- adds_only _ (catch _ _ _) => apply adds_only_catch
      | |- adds_only _ (send_json _ _) => apply adds_only_send_json; exact I
      | |- adds_only _ (send_checked _ _) =>
          apply adds_only_send_checked; exact I
      | |- adds_only _ (for_each _ _) => apply adds_only_for_each
      | |- adds_only _ (match ?x with _ => _ end) => destruct x
      | |- adds_only _ (if ?b then _ else _) => destruct b
      | |- adds_only _ (let _ := _ in _) => cbv zeta
      end
    | solve [auto] ].

Section DryRun.

Import Jira2AhaSync.

Variable w : world.
Variable config : Config.
Hypothesis Hdry : dry_run config = true.

Lemma update_jira_issue_dry issue_key fields :
  adds_only not_an_update (update_jira_issue w config issue_key fields).
Proof. unfold update_jira_issue. rewrite Hdry. adds_only_cases. Qed.

Lemma sync_attachment_no_update issue_key attachment :
  adds_only not_an_update (sync_attachment w config issue_key attachment).
Proof.
  unfold sync_attachment, download_attachment, upload_attachment_to_jira.
  adds_only_cases.
Qed.

Lemma sync_issue_with_aha_dry jira_issue :
  adds_only not_an_update (sync_issue_with_aha w config jira_issue).
Proof.
  unfold sync_issue_with_aha, get_aha_idea, get_aha_attachments.
  pose proof update_jira_issue_dry. pose proof sync_attachment_no_update.
  adds_only_cases.
Qed.

Lemma run_loop_dry issues :
  forall n, adds_only not_an_update (run_loop w config issues n).
Proof.
  pose proof sync_issue_with_aha_dry.
  induction issues as [|issue issues IH]; intros n; cbn [run_loop];
    adds_only_cases.
Qed.

(** In a dry run, [run_sync] never sends the update of a record. *)
Lemma run_sync_dry : adds_only not_an_update (run_sync w config).
Proof.
  unfold run_sync, get_jira_issues. pose proof run_loop_dry. adds_only_cases.
Qed.

End DryRun.


(* ===================================================================== *)
(** * Further properties of the two scripts *)
(* ===================================================================== *)

(** ** Events that a piece of code does not add *)

Section AddsNo.

Variable f : event -> bool.

Lemma adds_no_ret {A} (a : A) : adds_no f (ret a).
Proof. intros t. reflexivity. Qed.

Lemma adds_no_raise {A} e : adds_no f (@raise A e).
Proof. intros t. reflexivity. Qed.

Lemma adds_no_lift {A} (r : result A) : adds_no f (lift r).
Proof. intros t. reflexivity. Qed.

Lemma adds_no_emit e : f e = false -> adds_no f (emit e).
Proof.
  intros He t. unfold emit. cbn [snd]. rewrite filter_app. cbn [filter].
  rewrite He. apply app_nil_r.
Qed.

Lemma adds_no_bind {A B} (c : io A) (k : A -> io B) :
  adds_no f c -> (forall a, adds_no f (k a)) -> adds_no f (IO.bind c k).
Proof.
  intros Hc Hk t. unfold IO.bind. specialize (Hc t).
  destruct (c t) as [[a | e |] t']; cbn [snd] in *; auto.
  rewrite Hk. exact Hc.
Qed.

Lemma adds_no_catch {A} (body : io A) caught handler :
  adds_no f body -> (forall e, adds_no f (handler e)) ->
  adds_no f (catch body caught handler).
Proof.
  intros Hb Hh t. unfold catch. specialize (Hb t).
  destruct (body t) as [[a | e |] t']; cbn [snd] in *; auto.
  destruct (caught e); [rewrite Hh; exact Hb | exact Hb].
Qed.

Lemma adds_no_send_checked w r :
  f (Sent r) = false -> adds_no f (send_checked w r).
Proof.
  intros Hr t. unfold send_checked.
  destruct (respond w t r); cbn [snd]; rewrite filter_app; cbn [filter];
    rewrite Hr; apply app_nil_r.
Qed.

Lemma adds_no_send_json w r :
  f (Sent r) = false -> adds_no f (send_json w r).
Proof.
  intros Hr. unfold send_json.
  apply adds_no_bind; [apply adds_no_send_checked; exact Hr|].
  intros a. apply adds_no_lift.
Qed.

Lemma adds_no_for_each {A} (l : list A) body :
  (forall x, adds_no f (body x)) -> adds_no f (for_each l body).
Proof.
  intros Hb. induction l as [|x l IH]; cbn [for_each].
  - apply adds_no_ret.
  - apply adds_no_bind; [apply Hb | intros; exact IH].
Qed.

End AddsNo.

(** Follow the structure of effectful code; an event that is added must be
    one that the selection leaves out, by computation. *)
Ltac adds_no_cases :=
  repeat first
    [ assumption
    | progress intros
    | lazymatch goal with
      | |- adds_no _ (ret _) => apply adds_no_ret
      | |- adds_no _ (raise _) => apply adds_no_raise
      | |- adds_no _ (lift _) => apply adds_no_lift
      | |- adds_no _ (emit _) => apply adds_no_emit; reflexivity
      | |- adds_no _ (IO.bind _ _) => apply adds_no_bind
      | |- adds_no _ (catch _ _ _) => apply adds_no_catch
      | |- adds_no _ (Ahaj.call _ _ _) => unfold Ahaj.call
      | |- adds_no _ (send_json _ _) => apply adds_no_send_json; reflexivity
      | |- adds_no _ (send_checked _ _) =>
          apply adds_no_send_checked; reflexivity
      | |- adds_no _ (for_each _ _) => apply adds_no_for_each
      | |- adds_no _ (match ?x with _ => _ end) => destruct x
      | |- adds_no _ (if ?b then _ else _) => destruct b
      | |- adds_no _ (let _ := _ in _) => cbv zeta
      end
    | solve [auto] ].

(** ** [Jira2AhaSync.py]: what a run writes *)

Section NoWrite.

Import Jira2AhaSync.

Variable w : world.
Variable config : Config.

Lemma get_jira_issues_reads : adds_no is_write (get_jira_issues w config).
Proof. unfold get_jira_issues. adds_no_cases. Qed.

Lemma get_aha_idea_reads idea_id : adds_no is_write (get_aha_idea w config idea_id).
Proof. unfold get_aha_idea. adds_no_cases. Qed.

Section DryWithoutAttachments.

Hypothesis Hdry : dry_run config = true.
Hypothesis Hatt : update_attachments config = false.

Lemma sync_issue_with_aha_writes_nothing jira_issue :
  adds_no is_write (sync_issue_with_aha w config jira_issue).
Proof.
  unfold sync_issue_with_aha, update_jira_issue. rewrite Hdry, Hatt.
  pose proof get_aha_idea_reads. cbn [andb]. adds_no_cases.
Qed.

Lemma run_loop_writes_nothing issues :
  forall n, adds_no is_write (run_loop w config issues n).
Proof.
  pose proof sync_issue_with_aha_writes_nothing.
  induction issues as [|issue issues IH]; intros n; cbn [run_loop];
    adds_no_cases.
Qed.

End DryWithoutAttachments.

End NoWrite.

(** X1. A dry run with the synchronisation of attachments switched off
    writes nothing to the target service, whatever the two services
    answer: no update, no upload. *)
Theorem dry_run_without_attachments_writes_nothing
        (w : world) (config : Jira2AhaSync.Config) (t : trace) :
  Jira2AhaSync.dry_run config = true ->
  Jira2AhaSync.update_attachments config = false ->
  filter is_write (snd (Jira2AhaSync.run_sync w config t)) = filter is_write t.
Proof.
  intros Hdry Hatt. revert t.
  change (adds_no is_write (Jira2AhaSync.run_sync w config)).
  unfold Jira2AhaSync.run_sync.
  pose proof (get_jira_issues_reads w config).
  pose proof (run_loop_writes_nothing w config Hdry Hatt).
  adds_no_cases.
Qed.

Lemma dry_run_without_attachments_writes_nothing_witness :
  filter is_write
         (snd (Jira2AhaSync.run_sync one_attachment_world
                 dry_config_without_attachments []))
  = [].
Proof.
  exact (dry_run_without_attachments_writes_nothing one_attachment_world
           dry_config_without_attachments [] eq_refl eq_refl).
Defined.

(** ** [Jira2AhaSync.py]: the command line and the environment *)

Example int_of_text_sample :
  Startup.int_of_text "3" = Ok 3
  /\ Startup.int_of_text " 12 " = Ok 12
  /\ Startup.int_of_text "-7" = Ok (-7)
  /\ Startup.int_of_text "1_000" = Ok 1000
  /\ Startup.int_of_text "1__0" = Raise ValueError
  /\ Startup.int_of_text "" = Raise ValueError
  /\ Startup.int_of_text "three" = Raise ValueError.
Proof. repeat split. Qed.

(** X2. Listing the issues ([--list-issues]) writes nothing to the target
    service, whatever the configuration, the other arguments and the
    answers of the services. *)
Theorem list_issues_writes_nothing
        (w : world) (loaded : result Jira2AhaSync.Config)
        (args : Jira2AhaSync.arguments) (t : trace) :
  Jira2AhaSync.arg_list_issues args = true ->
  filter is_write (snd (Jira2AhaSync.main w loaded args t)) = filter is_write t.
Proof.
  intros Hlist. revert t.
  change (adds_no is_write (Jira2AhaSync.main w loaded args)).
  unfold Jira2AhaSync.main. rewrite Hlist.
  pose proof (get_jira_issues_reads w). adds_no_cases.
Qed.

Lemma list_issues_writes_nothing_witness :
  filter is_write
         (snd (Jira2AhaSync.main one_attachment_world (Ok dry_config)
                 (Jira2AhaSync.MkArguments false 3 false true) []))
  = [].
Proof.
  exact (list_issues_writes_nothing one_attachment_world (Ok dry_config)
           (Jira2AhaSync.MkArguments false 3 false true) [] eq_refl).
Defined.

(** X3. With [--dry-run] on the command line, [main] never sends the update
    of a record, whatever the environment says about [DRY_RUN]. *)
Theorem dry_run_argument_sends_no_update
        (w : world) (loaded : result Jira2AhaSync.Config)
        (args : Jira2AhaSync.arguments) :
  Jira2AhaSync.arg_dry_run args = true ->
  Forall not_an_update (snd (Jira2AhaSync.main w loaded args [])).
Proof.
  intros Hdry.
  assert (H : adds_only not_an_update (Jira2AhaSync.main w loaded args));
    [|apply H; constructor].
  unfold Jira2AhaSync.main. rewrite Hdry.
  apply adds_only_bind; [apply adds_only_lift|]. intros config. cbv zeta.
  set (c := if Jira2AhaSync.arg_test args then _ else _).
  assert (Hc : Jira2AhaSync.dry_run (Jira2AhaSync.set_dry_run c) = true)
    by reflexivity.
  pose proof (run_sync_dry w _ Hc).
  unfold Jira2AhaSync.get_jira_issues. adds_only_cases.
Qed.

(** The sample run, with the environment asking for a real run and
    [--dry-run] given: the attachment is still uploaded, the record is not
    updated. *)
Lemma dry_run_argument_sends_no_update_witness :
  Forall not_an_update
         (snd (Jira2AhaSync.main one_attachment_world
                 (Ok (Jira2AhaSync.MkConfig
                        "https://co.atlassian.net" "user@co.com" "jira-token"
                        "PROJ" "customfield_12345" "co.aha.io" "aha-key"
                        true true false false 3 []))
                 (Jira2AhaSync.MkArguments false 3 true false) [])).
Proof.
  exact (dry_run_argument_sends_no_update one_attachment_world _
           (Jira2AhaSync.MkArguments false 3 true false) eq_refl).
Defined.

(** X4. A [TEST_ISSUE_LIMIT] that is not an integer ends [main] with
    [ValueError] before anything is sent, also when the test mode is off. *)
Theorem invalid_test_limit_stops_main
        (w : world) (env : string -> option string) (limit : string)
        (args : Jira2AhaSync.arguments) (t : trace) :
  env "TEST_ISSUE_LIMIT" = Some limit ->
  Startup.int_of_text limit = Raise ValueError ->
  Jira2AhaSync.main w (Startup.load_config_from_env env) args t
  = (Raise ValueError, t).
Proof.
  intros Henv Hint.
  unfold Startup.load_config_from_env, Startup.getenv. rewrite Henv, Hint.
  reflexivity.
Qed.

Lemma invalid_test_limit_stops_main_witness :
  Jira2AhaSync.main silent_world
    (Startup.load_config_from_env
       (fun name => if String.eqb name "TEST_ISSUE_LIMIT" then Some "three" else None))
    no_arguments []
  = (Raise ValueError, []).
Proof.
  exact (invalid_test_limit_stops_main silent_world
           (fun name => if String.eqb name "TEST_ISSUE_LIMIT" then Some "three" else None)
           "three" no_arguments [] eq_refl eq_refl).
Defined.

(** ** [Jira2AhaSync.py]: the handling of one issue *)

Section OneIssue.

Import Jira2AhaSync.

Variable w : world.
Variable config : Config.

Lemma get_aha_idea_uploads_nothing idea_id :
  adds_no is_upload (get_aha_idea w config idea_id).
Proof. unfold get_aha_idea. adds_no_cases. Qed.

Lemma update_jira_issue_uploads_nothing issue_key fields :
  adds_no is_upload (update_jira_issue w config issue_key fields).
Proof. unfold update_jira_issue. adds_no_cases. Qed.

End OneIssue.

(** X5. An issue that [sync_issue_with_aha] reports as failed got no
    attachment: the uploads are made only after the update of the record
    has succeeded. *)
Theorem failed_issue_gets_no_upload
        (w : world) (config : Jira2AhaSync.Config) (jira_issue : value)
        (t t' : trace) :
  Jira2AhaSync.sync_issue_with_aha w config jira_issue t = (Ok false, t') ->
  filter is_upload t' = filter is_upload t.
Proof.
  intros H. unfold Jira2AhaSync.sync_issue_with_aha in H.
  apply bind_ok in H. destruct H as (issue_key & t0 & Hkey & H).
  apply lift_ok in Hkey. destruct Hkey as (_ & ->).
  apply bind_ok in H. destruct H as (fields & t0 & Hfields & H).
  apply lift_ok in Hfields. destruct Hfields as (_ & ->).
  apply bind_ok in H. destruct H as (reference & t0 & Href & H).
  apply lift_ok in Href. destruct Href as (_ & ->).
  destruct (negb (truthy reference));
    [apply ret_ok in H; destruct H as (_ & ->); reflexivity|].
  apply bind_ok in H. destruct H as (aha_idea & t1 & Hidea & H).
  pose proof (get_aha_idea_uploads_nothing w config reference t) as Hread.
  rewrite Hidea in Hread. cbn [snd] in Hread.
  destruct (negb (truthy aha_idea));
    [apply ret_ok in H; destruct H as (_ & ->); exact Hread|].
  apply bind_ok in H. destruct H as (update_fields & t2 & Hdescription & H).
  assert (Ht2 : t2 = t1).
  { destruct (Jira2AhaSync.update_description config);
      [|apply ret_ok in Hdescription; destruct Hdescription as (_ & ->);
        reflexivity].
    apply bind_ok in Hdescription.
    destruct Hdescription as (description & t3 & Hd & Hdescription).
    apply lift_ok in Hd. destruct Hd as (_ & ->).
    destruct (truthy description);
      apply ret_ok in Hdescription; destruct Hdescription as (_ & ->);
      reflexivity. }
  subst t2.
  apply bind_ok in H. destruct H as (update_fields' & t2 & Hmore & H).
  apply lift_ok in Hmore. destruct Hmore as (_ & ->).
  apply bind_ok in H. destruct H as (success & t2 & Hupdate & H).
  assert (Ht2 : filter is_upload t2 = filter is_upload t1).
  { destruct update_fields' as [|kv more].
    - apply ret_ok in Hupdate. destruct Hupdate as (_ & ->). reflexivity.
    - pose proof (update_jira_issue_uploads_nothing w config issue_key
                    (kv :: more) t1) as Hu.
      rewrite Hupdate in Hu. exact Hu. }
  apply bind_ok in H. destruct H as (u & t3 & Hattachments & H).
  apply ret_ok in H. destruct H as (Hsuccess & ->). subst success.
  rewrite andb_false_r in Hattachments.
  apply ret_ok in Hattachments. destruct Hattachments as (_ & ->).
  rewrite Ht2. exact Hread.
Qed.

(** The update of the sample issue is refused: the issue is reported as
    failed and its attachment is not uploaded. *)
Lemma failed_issue_gets_no_upload_witness :
  fst (Jira2AhaSync.sync_issue_with_aha refusing_updates_world live_config
         sample_issue []) = Ok false
  /\ filter is_upload
            (snd (Jira2AhaSync.sync_issue_with_aha refusing_updates_world
                    live_config sample_issue []))
     = [].
Proof.
  split; [reflexivity|].
  exact (failed_issue_gets_no_upload refusing_updates_world live_config
           sample_issue [] _ eq_refl).
Defined.

(** ** [Jira2AhaSync.py]: the loop of [run_sync] *)

Section TameJira.

Import Jira2AhaSync.

Variable w : world.
Variable config : Config.
Hypothesis Hw : benign w.

Lemma tame_additional_fields aha_idea mappings :
  forall update_fields, tame (additional_fields aha_idea mappings update_fields).
Proof.
  induction mappings as [|[aha_field jira_field] mappings IH]; intros update_fields;
    cbn [additional_fields]; tame_cases.
Qed.

Lemma tame_get_aha_idea idea_id : tame_io (get_aha_idea w config idea_id).
Proof. unfold get_aha_idea. tame_io_cases. Qed.

Lemma tame_py_len c : tame (py_len c).
Proof.
  unfold py_len. pose proof (tame_py_iter c). destruct (py_iter c); tame_cases.
Qed.

Lemma tame_get_aha_attachments idea_id :
  tame_io (get_aha_attachments w config idea_id).
Proof.
  unfold get_aha_attachments. pose proof tame_py_len. tame_io_cases.
Qed.

Lemma tame_update_jira_issue issue_key fields :
  tame_io (update_jira_issue w config issue_key fields).
Proof. unfold update_jira_issue. tame_io_cases. Qed.

Lemma tame_sync_attachment issue_key attachment :
  tame_io (sync_attachment w config issue_key attachment).
Proof.
  unfold sync_attachment, download_attachment, upload_attachment_to_jira.
  tame_io_cases.
Qed.

Lemma tame_sync_issue_with_aha jira_issue :
  tame_io (sync_issue_with_aha w config jira_issue).
Proof.
  unfold sync_issue_with_aha.
  pose proof tame_get_aha_idea. pose proof tame_get_aha_attachments.
  pose proof tame_update_jira_issue. pose proof tame_sync_attachment.
  pose proof tame_additional_fields.
  tame_io_cases.
Qed.

End TameJira.

(** X6. Under services that answer or fail, the loop of [run_sync] handles
    every issue that has a [key]: an error on one issue does not keep it
    from the next, nothing is raised, and the count of successes grows by
    at most one per issue. *)
Theorem run_loop_handles_every_issue
        (w : world) (config : Jira2AhaSync.Config) (issues : list value) :
  benign w ->
  Forall (fun issue => exists key, py_getitem issue (VStr "key") = Ok key) issues ->
  forall n t,
  exists n' t',
    Jira2AhaSync.run_loop w config issues n t = (Ok n', t')
    /\ n <= n' <= n + Z.of_nat (List.length issues).
Proof.
  intros Hw. induction 1 as [|issue issues (key & Hkey) _ IH]; intros n t.
  - exists n, t. cbn [Jira2AhaSync.run_loop List.length Z.of_nat].
    split; [reflexivity | lia].
  - cbn [Jira2AhaSync.run_loop].
    assert (Hone : exists n1 t1,
               catch (IO.bind (Jira2AhaSync.sync_issue_with_aha w config issue)
                              (fun ok => ret (if ok then n + 1 else n)))
                     any_exception
                     (fun _ => IO.bind (lift (py_getitem issue (VStr "key")))
                                       (fun _ => ret n)) t
               = (Ok n1, t1) /\ n <= n1 <= n + 1).
    { unfold catch, IO.bind at 1.
      pose proof (tame_sync_issue_with_aha w config Hw issue t) as Htame.
      destruct (Jira2AhaSync.sync_issue_with_aha w config issue t)
        as [[ok | e |] t1]; cbn [fst] in Htame.
      - exists (if ok then n + 1 else n), t1. split; [reflexivity|].
        destruct ok; lia.
      - rewrite (any_exception_tame e Htame).
        exists n, t1. unfold IO.bind, lift. rewrite Hkey.
        split; [reflexivity | lia].
      - contradiction. }
    destruct Hone as (n1 & t1 & Hone & Hn1).
    rewrite (bind_returns _ _ t n1 t1 Hone).
    destruct (IH n1 t1) as (n' & t' & -> & Hn').
    exists n', t'. split; [reflexivity|]. cbn [List.length]. lia.
Qed.

Lemma run_loop_handles_every_issue_witness :
  exists n' t',
    Jira2AhaSync.run_loop silent_world live_config [sample_issue; sample_issue] 0 []
    = (Ok n', t')
    /\ 0 <= n' <= 0 + Z.of_nat (List.length [sample_issue; sample_issue]).
Proof.
  refine (run_loop_handles_every_issue silent_world live_config
            [sample_issue; sample_issue] _ _ 0 []).
  - intros t r. cbn. discriminate.
  - repeat constructor; eexists; reflexivity.
Defined.

(** X7. An issue without [key] is not survived by the loop of [run_sync]:
    the [except Exception] clause formats [issue['key']] into its message,
    so the exception is raised again, past the loop; the issues that follow
    are not handled and nothing is sent for them. *)
Theorem run_loop_stops_at_issue_without_key
        (w : world) (config : Jira2AhaSync.Config) (issue : value)
        (rest : list value) (e : exn) (n : Z) (t : trace) :
  py_getitem issue (VStr "key") = Raise e ->
  e <> SystemExit ->
  Jira2AhaSync.run_loop w config (issue :: rest) n t = (Raise e, t).
Proof.
  intros Hkey He. cbn [Jira2AhaSync.run_loop].
  apply bind_raises. unfold catch.
  rewrite (bind_raises _ _ t e t).
  - rewrite (any_exception_tame e He).
    apply bind_raises. unfold lift. rewrite Hkey. reflexivity.
  - unfold Jira2AhaSync.sync_issue_with_aha.
    apply bind_raises. unfold lift. rewrite Hkey. reflexivity.
Qed.

Lemma run_loop_stops_at_issue_without_key_witness :
  Jira2AhaSync.run_loop one_attachment_world live_config
    [VDict [("fields", VDict [("customfield_12345", VStr "IDEA-1")])];
     sample_issue] 0 []
  = (Raise KeyError, []).
Proof.
  refine (run_loop_stops_at_issue_without_key one_attachment_world live_config
            (VDict [("fields", VDict [("customfield_12345", VStr "IDEA-1")])])
            [sample_issue] KeyError 0 [] eq_refl _).
  discriminate.
Defined.

(** X8. [Jira2AhaSync.py] cannot be run as it is: in the class body of
    [Config] a field without default follows a field with one, so
    [@dataclass] raises [TypeError] while the module is loaded; for every
    environment and every command line the script ends with status 1 and
    has sent nothing. *)
Theorem script_always_fails
        (w : world) (env : string -> option string)
        (args : Jira2AhaSync.arguments) (t : trace) :
  Jira2AhaSync.script w (Startup.load_config_from_env env) args t
  = (Raise TypeError, t)
  /\ exit_status (Jira2AhaSync.script w (Startup.load_config_from_env env) args t)
     = Ok 1.
Proof. split; reflexivity. Qed.

(** ** [Ahaj.py]: dotted paths *)

Section Paths.

Import Ahaj.

Lemma split_append sep p q :
  split sep (p ++ String sep q) = (split sep p ++ split sep q)%list.
Proof.
  induction p as [|c p IH]; cbn [append split].
  - rewrite Ascii.eqb_refl. reflexivity.
  - destruct (Ascii.eqb c sep); rewrite IH; [reflexivity|].
    destruct (split sep p) as [|h rest] eqn:E; [|reflexivity].
    destruct p; cbn [split] in E; try discriminate E;
      repeat match type of E with
             | context [if ?b then _ else _] => destruct b
             | context [match ?l with [] => _ | _ :: _ => _ end] => destruct l
             end; discriminate E.
Qed.

Lemma nested_loop_none keys : nested_loop VNone keys = Ok VNone.
Proof. destruct keys; reflexivity. Qed.

Lemma nested_loop_append keys1 keys2 :
  forall current,
    nested_loop current (keys1 ++ keys2)
    = (let? v := nested_loop current keys1 in nested_loop v keys2).
Proof.
  induction keys1 as [|key keys1 IH]; intros current; cbn [app nested_loop rbind].
  - reflexivity.
  - destruct (nested_step_descends current key) as [(v & _ & ->)|(_ & ->)];
      cbn [rbind].
    + apply IH.
    + rewrite nested_loop_none. reflexivity.
Qed.

End Paths.

(** X9. Resolution composes along a dotted path: resolving ["p.q"] in a
    record is resolving ["p"] and then ["q"] in what was reached (an absent
    value stays absent). *)
Theorem get_nested_field_value_composes (data : value) (p q : string) :
  Ahaj.get_nested_field_value data (p ++ "." ++ q)
  = (let? v := Ahaj.get_nested_field_value data p in
     Ahaj.get_nested_field_value v q).
Proof.
  unfold Ahaj.get_nested_field_value.
  change (p ++ "." ++ q) with (p ++ String "." q).
  rewrite split_append. apply nested_loop_append.
Qed.

(** ** [Ahaj.py]: the description and the labels *)

Section Description.

Import Ahaj.

Lemma py_eq_strings n names :
  existsb (py_eq (VStr n)) (map VStr names) = existsb (String.eqb n) names.
Proof.
  induction names as [|m names IH]; cbn [map existsb]; [reflexivity|].
  rewrite IH. reflexivity.
Qed.

End Description.

(** X10. Of the custom fields of a record, the description lists those
    whose name is in [description_custom_fields], and only those, in the
    order of the record. *)
Theorem description_lists_allowed_custom_fields
        (names : list string) (fields : list (string * value))
        (parts : list value) :
  Ahaj.description_custom_fields (VList (map VStr names))
                                 (map custom_field_json fields) parts
  = Ok (parts ++ map custom_field_line (filter (allowed names) fields))%list.
Proof.
  revert parts. induction fields as [|[n v] fields IH]; intros parts;
    cbn [map filter Ahaj.description_custom_fields].
  - rewrite app_nil_r. reflexivity.
  - unfold custom_field_json at 1.
    cbn [py_get dict_get dict_lookup fst snd String.eqb Ascii.eqb Bool.eqb rbind py_in].
    rewrite py_eq_strings. unfold allowed at 1. cbn [fst].
    destruct (existsb (String.eqb n) names); cbn [rbind].
    + unfold custom_field_json at 1.
      cbn [py_get dict_get dict_lookup fst snd String.eqb Ascii.eqb Bool.eqb rbind].
      rewrite IH. cbn [map]. rewrite <- app_assoc. reflexivity.
    + apply IH.
Qed.

Section Labels.

Import Ahaj.

Lemma replace_char_removes a b s :
  Ascii.eqb a b = false -> str_contains a (replace_char a b s) = false.
Proof.
  intros Hab. induction s as [|c s IH]; cbn [replace_char str_contains];
    [reflexivity|].
  rewrite IH, orb_false_r.
  destruct (Ascii.eqb c a) eqn:E; [exact Hab|].
  rewrite Ascii.eqb_sym. exact E.
Qed.

End Labels.

(** X11. The labels made from the categories of a record are strings
    without spaces. *)
Theorem category_labels_have_no_space (cats labels : list value) :
  Ahaj.comprehension Ahaj.category_label cats = Ok labels ->
  Forall (fun label => exists s, label = VStr s /\ str_contains " " s = false)
         labels.
Proof.
  revert labels. induction cats as [|cat cats IH]; cbn [Ahaj.comprehension];
    intros labels H.
  - injection H as <-. constructor.
  - apply rbind_ok in H. destruct H as (label & Hlabel & H).
    apply rbind_ok in H. destruct H as (rest & Hrest & H). injection H as <-.
    constructor; [|apply IH; exact Hrest].
    unfold Ahaj.category_label in Hlabel.
    apply rbind_ok in Hlabel. destruct Hlabel as (name & _ & Hlabel).
    destruct name as [| | |s| |]; try discriminate Hlabel.
    injection Hlabel as <-. eexists. split; [reflexivity|].
    apply replace_char_removes. reflexivity.
Qed.

Lemma category_labels_have_no_space_witness :
  Forall (fun label => exists s, label = VStr s /\ str_contains " " s = false)
         [VStr "User_Experience"; VStr "Mobile_app_v2"].
Proof.
  exact (category_labels_have_no_space
           [VDict [("name", VStr "User Experience")];
            VDict [("name", VStr "Mobile app v2")]]
           _ eq_refl).
Defined.

(** ** [Ahaj.py]: reading the list of ideas *)

Section Pagination.

Import Ahaj.

Variable w : world.
Variable u : url.

Lemma serves_next first page pages :
  serves w u first (page :: pages) -> serves w u (first + 1) pages.
Proof.
  intros H t i pg Hi. destruct (H t (S i) pg Hi) as (c & Hc).
  exists c. rewrite <- Hc. f_equal. f_equal. lia.
Qed.

Lemma page_requests_next first n :
  page_requests u first (S n)
  = Sent (page_request u first) :: page_requests u (first + 1) n.
Proof.
  unfold page_requests. cbn [seq map]. rewrite Z.add_0_r. f_equal.
  rewrite <- seq_shift, map_map. apply map_ext. intros i.
  do 2 f_equal. lia.
Qed.

Lemma fetch_pages_reads_all (full : list (list value)) (last : list value) :
  Forall (fun page => (100 <= List.length page)%nat) full ->
  (List.length last < 100)%nat ->
  forall fuel first all_ideas t,
    serves w u first (full ++ [last])%list ->
    (List.length full < fuel)%nat ->
    fetch_pages w fuel u first all_ideas t
    = (Ok (all_ideas ++ List.concat full ++ last)%list,
       (t ++ page_requests u first (S (List.length full)))%list).
Proof.
  intros Hfull Hlast. induction Hfull as [|page full Hpage _ IH];
    intros fuel first all_ideas t Hserves Hfuel.
  - destruct fuel as [|fuel]; [cbn in Hfuel; lia|].
    destruct (Hserves t 0%nat last eq_refl) as (c & Hc).
    rewrite Z.add_0_r in Hc.
    cbn [fetch_pages List.length List.concat app].
    unfold send_json, send_checked, IO.bind, lift.
    fold (page_request u first). rewrite Hc.
    cbn [fst snd py_get dict_get dict_lookup String.eqb Ascii.eqb Bool.eqb].
    rewrite page_requests_next. unfold page_requests at 1. cbn [seq map].
    destruct last as [|idea last]; cbn [truthy negb py_iter].
    + rewrite app_nil_r. reflexivity.
    + destruct (Z.ltb_spec (Z.of_nat (List.length (idea :: last))) 100) as [_|Hge];
        [reflexivity | lia].
  - destruct fuel as [|fuel]; [cbn in Hfuel; lia|].
    destruct (Hserves t 0%nat page eq_refl) as (c & Hc).
    rewrite Z.add_0_r in Hc.
    cbn [fetch_pages].
    unfold send_json, send_checked, IO.bind, lift.
    fold (page_request u first). rewrite Hc.
    cbn [fst snd py_get dict_get dict_lookup String.eqb Ascii.eqb Bool.eqb].
    destruct page as [|idea page]; [cbn in Hpage; lia|].
    cbn [truthy negb py_iter].
    destruct (Z.ltb_spec (Z.of_nat (List.length (idea :: page))) 100) as [Hlt|_];
      [lia|].
    rewrite (IH fuel (first + 1) (all_ideas ++ idea :: page)%list
               (t ++ [Sent (page_request u first)])%list
               (serves_next _ _ _ Hserves)
               ltac:(cbn [List.length] in Hfuel; lia)).
    cbn [List.length List.concat]. rewrite (page_requests_next first (S _)).
    rewrite <- !app_assoc. reflexivity.
Qed.

End Pagination.

(** X12. [fetch_ideas_list] reads the pages of 100 ideas one after the
    other, stops at the first page with fewer than 100 ideas (empty or not)
    and returns the ideas of all the pages read, in order; it sends one
    request per page and no more. *)
Theorem fetch_ideas_list_reads_all_pages
        (defines : string -> bool) (w : world) (config : value) (fuel : nat)
        (product_id base : value) (full : list (list value)) (last : list value)
        (t : trace) :
  let u := Url (py_str base ++ "/api/v1/products/" ++ py_str product_id ++ "/ideas") in
  defines "_rate_limit_aha" = true ->
  Ahaj.config_at config "aha" "base_url" = Ok base ->
  serves w u 1 (full ++ [last])%list ->
  Forall (fun page => (100 <= List.length page)%nat) full ->
  (List.length last < 100)%nat ->
  (List.length full < fuel)%nat ->
  Ahaj.fetch_ideas_list defines w config fuel product_id t
  = (Ok (List.concat full ++ last)%list,
     (t ++ Throttle Aha :: page_requests u 1 (S (List.length full)))%list).
Proof.
  intros u Hdef Hbase Hserves Hfull Hlast Hfuel.
  unfold Ahaj.fetch_ideas_list, Ahaj.call. rewrite Hdef.
  unfold Ahaj._rate_limit_aha, IO.bind at 1, emit.
  unfold IO.bind at 1, lift at 1. rewrite Hbase.
  unfold catch. fold u.
  rewrite (fetch_pages_reads_all w u full last Hfull Hlast fuel 1 []
             (t ++ [Throttle Aha])%list Hserves Hfuel).
  cbn [app]. rewrite <- app_assoc. reflexivity.
Qed.

Lemma fetch_ideas_list_reads_all_pages_witness :
  fst (Ahaj.fetch_ideas_list Ahaj.class_defines two_pages_world sample_config 5
         (VStr "P1") [])
  = Ok (repeat (VDict [("id", VInt 1)]) 100 ++ [VDict [("id", VInt 2)]])%list.
Proof.
  rewrite (fetch_ideas_list_reads_all_pages Ahaj.class_defines two_pages_world
             sample_config 5 (VStr "P1") (VStr "https://your-company.aha.io")
             [repeat (VDict [("id", VInt 1)]) 100] [VDict [("id", VInt 2)]] []).
  - cbn [fst List.concat]. rewrite app_nil_r. reflexivity.
  - reflexivity.
  - reflexivity.
  - intros t i page Hi. destruct i as [|[|i]]; cbn in Hi;
      [injection Hi as <-; eexists; reflexivity
      |injection Hi as <-; eexists; reflexivity
      |destruct i; discriminate Hi].
  - repeat constructor.
  - cbn. lia.
  - cbn. lia.
Defined.

(** ** [Ahaj.py]: the custom fields of the payload *)

Lemma bind_ext {A B} (c : io A) (k1 k2 : A -> io B) t :
  (forall a t', k1 a t' = k2 a t') -> IO.bind c k1 t = IO.bind c k2 t.
Proof.
  intros H. unfold IO.bind. destruct (c t) as [[a | e |] t']; auto.
Qed.

Section CustomFields.

Import Ahaj.

Variable defines : string -> bool.
Hypothesis Hdef : defines "get_nested_field_value" = true.
Variable idea : value.

(** One turn of the loop, for a path that resolves to nothing. *)
Lemma custom_fields_loop_absent path target items fields t :
  get_nested_field_value idea path = Ok VNone ->
  custom_fields_loop defines idea ((path, target) :: items) fields t
  = custom_fields_loop defines idea items fields t.
Proof.
  intros Habsent. cbn [custom_fields_loop]. unfold call. rewrite Hdef.
  unfold IO.bind at 1, lift at 1. rewrite Habsent. reflexivity.
Qed.

(** One turn of the loop, for a path that resolves to a value. *)
Lemma custom_fields_loop_present path target items fields v t :
  get_nested_field_value idea path = Ok v ->
  v <> VNone ->
  custom_fields_loop defines idea ((path, VStr target) :: items) fields t
  = custom_fields_loop defines idea items (dict_set fields target v) t.
Proof.
  intros Hv Hsome. cbn [custom_fields_loop]. unfold call. rewrite Hdef.
  unfold IO.bind at 1, lift at 1. rewrite Hv.
  destruct v; try congruence; reflexivity.
Qed.

End CustomFields.

(** X13. A configured custom field whose path does not resolve in the
    record is skipped: the payload is what it would be without that entry
    of [custom_fields], and the fields configured before and after it are
    still mapped. *)
Theorem unresolved_custom_field_is_skipped
        (defines : string -> bool) (idea : value) (before after : dict)
        (path : string) (target : value) (fields : dict) (t : trace) :
  defines "get_nested_field_value" = true ->
  Ahaj.get_nested_field_value idea path = Ok VNone ->
  Ahaj.custom_fields_loop defines idea (before ++ (path, target) :: after)%list
                          fields t
  = Ahaj.custom_fields_loop defines idea (before ++ after)%list fields t.
Proof.
  intros Hdef Habsent. revert fields t.
  induction before as [|[p0 t0] before IH]; intros fields t; cbn [app].
  - apply custom_fields_loop_absent; assumption.
  - cbn [Ahaj.custom_fields_loop].
    apply bind_ext. intros v t1.
    destruct v; try apply IH; apply bind_ext; intros; apply IH.
Qed.

Lemma unresolved_custom_field_is_skipped_witness :
  Ahaj.custom_fields_loop Ahaj.class_defines idea_with_custom_fields
    [("custom_fields.0.value", VStr "customfield_1");
     ("custom_fields.7.value", VStr "customfield_2");
     ("custom_fields.1.value", VStr "customfield_3")] [] []
  = (Ok [("customfield_1", VInt 3); ("customfield_3", VStr "Core")], []).
Proof.
  exact (eq_trans
           (unresolved_custom_field_is_skipped Ahaj.class_defines
              idea_with_custom_fields
              [("custom_fields.0.value", VStr "customfield_1")]
              [("custom_fields.1.value", VStr "customfield_3")]
              "custom_fields.7.value" (VStr "customfield_2") [] []
              eq_refl eq_refl)
           eq_refl).
Defined.

(** X14. A configured custom field whose path resolves in the record ends
    up in the payload under its target name, with exactly the value
    resolved, unless a later entry of [custom_fields] has the same
    target. *)
Theorem resolved_custom_field_is_mapped
        (defines : string -> bool) (idea : value) (before after : dict)
        (path target : string) (v : value) (fields fields' : dict)
        (t t' : trace) :
  defines "get_nested_field_value" = true ->
  Ahaj.get_nested_field_value idea path = Ok v ->
  v <> VNone ->
  existsb (fun entry => target_is target (snd entry)) after = false ->
  Ahaj.custom_fields_loop defines idea
    (before ++ (path, VStr target) :: after)%list fields t = (Ok fields', t') ->
  dict_lookup target fields' = Some v.
Proof.
  intros Hdef Hv Hsome Hafter. revert fields t.
  induction before as [|[p0 t0] before IH]; intros fields t H; cbn [app] in H.
  - rewrite (custom_fields_loop_present defines Hdef idea path target after
               fields v t Hv Hsome) in H.
    rewrite (custom_fields_loop_other defines idea target after Hafter _ _ _ _ H).
    apply dict_lookup_set_same.
  - cbn [Ahaj.custom_fields_loop] in H.
    apply bind_ok in H. destruct H as (v0 & t1 & H0 & H).
    apply call_ok in H0. apply lift_ok in H0. destruct H0 as (_ & ->).
    destruct v0; try exact (IH _ _ H);
      (apply bind_ok in H; destruct H as (fields1 & t2 & H1 & H);
       apply lift_ok in H1; destruct H1 as (_ & ->); exact (IH _ _ H)).
Qed.

Lemma resolved_custom_field_is_mapped_witness :
  dict_lookup "customfield_3"
    [("customfield_1", VInt 3); ("customfield_3", VStr "Core")]
  = Some (VStr "Core").
Proof.
  exact (resolved_custom_field_is_mapped Ahaj.class_defines
           idea_with_custom_fields
           [("custom_fields.0.value", VStr "customfield_1")] []
           "custom_fields.1.value" "customfield_3" (VStr "Core") []
           [("customfield_1", VInt 3); ("customfield_3", VStr "Core")] [] []
           eq_refl eq_refl ltac:(discriminate) eq_refl eq_refl).
Defined.

(** ** [Ahaj.py]: the fields every payload has *)

Section RequiredFields.

Import Ahaj.

Variable k : string.




End RequiredFields.



(** ** [Ahaj.py]: the comment of a record that has comments *)

Section CommentsText.

Import Ahaj.

(** The loop adds its lines after those it is given. *)
Lemma comment_loop_extends cs :
  forall formatted l,
    comment_loop formatted cs = Ok l -> exists l', l = (formatted ++ l')%list.
Proof.
  induction cs as [|c cs IH]; cbn [comment_loop]; intros formatted l H.
  - injection H as <-. exists []. rewrite app_nil_r. reflexivity.
  - apply rbind_ok in H. destruct H as (block & _ & H).
    destruct (IH _ _ H) as (l' & ->).
    exists (block ++ l')%list. rewrite app_assoc. reflexivity.
Qed.

Lemma blank_append a b : blank (a ++ b) = blank a && blank b.
Proof.
  unfold blank. induction a as [|c a IH]; cbn [append all_chars].
  - reflexivity.
  - rewrite IH. rewrite andb_assoc. reflexivity.
Qed.

(** The text made of a list of comments that is not empty begins with the
    heading, so it is not blank. *)
Lemma format_comments_for_jira_not_blank comments text :
  truthy comments = true ->
  format_comments_for_jira comments = Ok text ->
  blank text = false.
Proof.
  intros Htruthy H. unfold format_comments_for_jira in H.
  rewrite Htruthy in H. cbn [negb] in H.
  apply rbind_ok in H. destruct H as (cs & _ & H).
  apply rbind_ok in H. destruct H as (formatted & Hloop & H).
  destruct (comment_loop_extends _ _ _ Hloop) as (l' & ->).
  unfold join_values in H.
  apply rbind_ok in H. destruct H as (parts & Hparts & H).
  injection H as <-.
  cbn [app strings_of] in Hparts.
  apply rbind_ok in Hparts. destruct Hparts as (parts1 & Hparts1 & Hparts).
  injection Hparts as <-.
  apply rbind_ok in Hparts1. destruct Hparts1 as (parts2 & _ & Hparts1).
  injection Hparts1 as <-.
  cbn [join]. rewrite blank_append. reflexivity.
Qed.

End CommentsText.

(** X16. The text that [format_comments_for_jira] makes of the comments of
    a record that has comments is never blank, so
    [add_comment_to_jira_issue] does not take its early return on it: it
    pauses for the target service and posts that text, once, as the body
    of one comment. *)
Theorem comments_of_a_record_are_posted
        (defines : string -> bool) (w : world) (config : value)
        (issue_key comments base : value) (text : string) (t : trace) :
  truthy comments = true ->
  Ahaj.format_comments_for_jira comments = Ok text ->
  defines "_rate_limit_jira" = true ->
  Ahaj.config_at config "jira" "base_url" = Ok base ->
  snd (Ahaj.add_comment_to_jira_issue defines w config issue_key text t)
  = (t ++ [Throttle Jira;
           Sent (Post (Url (py_str base ++ "/rest/api/3/issue/"
                            ++ py_str issue_key ++ "/comment"))
                      (VDict [("body", Ahaj.document text)]))])%list.
Proof.
  intros Htruthy Htext Hdef Hbase.
  unfold Ahaj.add_comment_to_jira_issue.
  rewrite (format_comments_for_jira_not_blank comments text Htruthy Htext).
  unfold Ahaj.call. rewrite Hdef.
  unfold Ahaj._rate_limit_jira, IO.bind at 1, emit.
  unfold catch, IO.bind at 1, lift. rewrite Hbase.
  unfold IO.bind, send_checked.
  destruct (respond w _ _) as [e | c j].
  - destruct (request_exception e); cbn [snd ret];
      rewrite <- app_assoc; reflexivity.
  - cbn [snd ret]. rewrite <- app_assoc. reflexivity.
Qed.

Lemma comments_of_a_record_are_posted_witness :
  exists text,
    Ahaj.format_comments_for_jira two_comments = Ok text
    /\ snd (Ahaj.add_comment_to_jira_issue Ahaj.class_defines silent_world
              sample_config (VStr "PROJ-1") text [])
       = [Throttle Jira;
          Sent (Post (Url ("https://your-company.atlassian.net"
                           ++ "/rest/api/3/issue/PROJ-1/comment"))
                     (VDict [("body", Ahaj.document text)]))].
Proof.
  eexists. split; [reflexivity|].
  exact (comments_of_a_record_are_posted Ahaj.class_defines silent_world
           sample_config (VStr "PROJ-1") two_comments
           (VStr "https://your-company.atlassian.net") _ []
           eq_refl eq_refl eq_refl eq_refl).
Defined.

(** ** [Ahaj.py]: the summary of a run *)

Section Summary.

Import Ahaj.

Variable defines : string -> bool.
Variable w : world.
Variable config : value.
Hypothesis Hw : benign w.

(** No exception of the paging loop ends the process. *)
Lemma fetch_pages_raises n : forall u page all_ideas t e,
  fst (fetch_pages w n u page all_ideas t) = Raise e -> e <> SystemExit.
Proof.
  induction n as [|n IH]; intros u page all_ideas t e; cbn [fetch_pages].
  - discriminate.
  - unfold IO.bind at 1.
    pose proof (tame_io_send_json w
                  (Get Aha u [("per_page", VInt 100); ("page", VInt page)]) Hw t)
      as Hsend.
    destruct (send_json w _ t) as [[data | e0 |] t1]; cbn [fst] in *;
      [| intros [= <-]; exact Hsend | contradiction].
    unfold IO.bind at 1, lift at 1.
    pose proof (tame_py_get data "ideas" (VList [])) as Hget.
    destruct (py_get data "ideas" (VList [])) as [ideas | e1 |]; cbn [fst] in *;
      [| intros [= <-]; exact Hget | contradiction].
    destruct (negb (truthy ideas)); [discriminate|].
    unfold IO.bind at 1, lift at 1.
    pose proof (tame_py_iter ideas) as Hiter.
    destruct (py_iter ideas) as [items | e2 |]; cbn [fst] in *;
      [| intros [= <-]; exact Hiter | contradiction].
    destruct (Z.of_nat (List.length items) <? 100); [discriminate|].
    apply IH.
Qed.

Lemma fetch_ideas_list_raises fuel product_id t e :
  fst (call defines "fetch_ideas_list"
         (fetch_ideas_list defines w config fuel product_id) t) = Raise e ->
  e <> SystemExit.
Proof.
  unfold call. destruct (defines "fetch_ideas_list"); [|intros [= <-]; discriminate].
  unfold fetch_ideas_list, call.
  destruct (defines "_rate_limit_aha"); [|intros [= <-]; discriminate].
  unfold IO.bind at 1, _rate_limit_aha, emit.
  unfold IO.bind at 1, lift at 1.
  pose proof (tame_config_at config "aha" "base_url") as Hbase.
  destruct (config_at config "aha" "base_url") as [base | e0 |]; cbn [fst] in *;
    [| intros [= <-]; exact Hbase | contradiction].
  unfold catch.
  match goal with
  | |- context [fetch_pages w fuel ?u 1 [] ?t1] =>
      pose proof (fetch_pages_raises fuel u 1 [] t1) as Hpages;
      destruct (fetch_pages w fuel u 1 [] t1) as [[l | e1 |] t2]
  end; cbn [fst] in *; try discriminate.
  destruct (request_exception e1); unfold raise; cbn [fst];
    intros [= <-]; apply Hpages; reflexivity.
Qed.

(** The loop over any list of records: it ends with the summary of the
    records it handled, each counted once. *)
Lemma sync_loop_bound ideas :
  forall r t,
  exists r' outcome t',
    sync_loop defines w config ideas r t = ((r', outcome), t')
    /\ tame outcome
    /\ total_ideas r' = total_ideas r
    /\ successful_syncs r + failed_syncs r
       <= successful_syncs r' + failed_syncs r'
       <= successful_syncs r + failed_syncs r + Z.of_nat (List.length ideas).
Proof.
  induction ideas as [|idea ideas IH]; intros r t; cbn [sync_loop].
  - exists r, (Ok tt), t. cbn [List.length Z.of_nat tame].
    repeat split; try exact I; lia.
  - pose proof (tame_py_getitem idea (VStr "id")) as Hid.
    destruct (py_getitem idea (VStr "id")) as [id | e |]; cbn [tame] in Hid;
      [| | contradiction].
    + destruct (sync_one_counts defines w config Hw id r t)
        as (r1 & t1 & -> & Htotal & Hcount).
      destruct (IH r1 t1) as (r' & outcome & t' & -> & Houtcome & Htotal' & Hcount').
      exists r', outcome, t'. split; [reflexivity|]. split; [exact Houtcome|].
      split; [congruence|]. cbn [List.length]. lia.
    + exists r, (Raise e), t. split; [reflexivity|]. split; [exact Hid|].
      split; [reflexivity|]. cbn [List.length]. lia.
Qed.

End Summary.

(** X17. Under services that answer or fail, [sync_ideas] returns a
    summary whatever happens, provided the listing of the records ends
    (within the pages the model reads): no exception leaves it.  In the
    summary the records counted as synced or as failed are never more than
    [total_ideas]. *)
Theorem sync_ideas_returns_summary
        (defines : string -> bool) (w : world) (config : value) (fuel : nat)
        (product_id : value) (t : trace) :
  benign w ->
  fst (Ahaj.call defines "fetch_ideas_list"
         (Ahaj.fetch_ideas_list defines w config fuel product_id) t) <> NoFuel ->
  exists r t',
    Ahaj.sync_ideas defines w config fuel product_id t = (Ok r, t')
    /\ 0 <= Ahaj.successful_syncs r + Ahaj.failed_syncs r <= Ahaj.total_ideas r.
Proof.
  intros Hw Hends. unfold Ahaj.sync_ideas.
  pose proof (fetch_ideas_list_raises defines w config Hw fuel product_id t)
    as Hraise.
  destruct (Ahaj.call defines "fetch_ideas_list" _ t) as [[ideas | e |] t1];
    cbn [fst] in *; [| | congruence].
  - match goal with
    | |- context [Ahaj.sync_loop _ _ _ _ ?r0 _] =>
        destruct (sync_loop_bound defines w config Hw ideas r0 t1)
          as (r' & outcome & t' & -> & Houtcome & Htotal & Hcount)
    end.
    cbn [Ahaj.total_ideas Ahaj.successful_syncs Ahaj.failed_syncs] in *.
    destruct outcome as [[] | e |]; cbn [tame Ahaj.fatal] in *;
      [| | contradiction].
    + exists r', t'. split; [reflexivity|]. lia.
    + rewrite (any_exception_tame e Houtcome).
      eexists; eexists. split; [reflexivity|].
      cbn [Ahaj.add_error Ahaj.total_ideas Ahaj.successful_syncs
           Ahaj.failed_syncs]. lia.
  - cbn [Ahaj.fatal]. rewrite (any_exception_tame e (Hraise e eq_refl)).
    eexists; eexists. split; [reflexivity|].
    cbn [Ahaj.add_error Ahaj.total_ideas Ahaj.successful_syncs
         Ahaj.failed_syncs]. lia.
Qed.

Lemma sync_ideas_returns_summary_witness :
  exists r t',
    Ahaj.sync_ideas Ahaj.repaired_defines (listing_world records_missing_id)
                    sample_config 1 (VStr "P1") [] = (Ok r, t')
    /\ 0 <= Ahaj.successful_syncs r + Ahaj.failed_syncs r <= Ahaj.total_ideas r.
Proof.
  refine (sync_ideas_returns_summary Ahaj.repaired_defines
            (listing_world records_missing_id) sample_config 1 (VStr "P1") [] _ _).
  - intros t r. destruct r as [[|] u p | u b | u b | u f c]; cbn;
      first [exact I | discriminate].
  - vm_compute. discriminate.
Defined.

(** X18. A record of the list that has no [id] ends the loop of
    [sync_ideas]: [idea_summary['id']] is evaluated outside the inner
    [try].  The records after it are not handled; the loop ends as it
    would after the records before it, with the exception. *)
Theorem sync_loop_stops_at_record_without_id
        (defines : string -> bool) (w : world) (config : value)
        (before after : list value) (idea_summary : value) (e : exn)
        (r : Ahaj.results) (t : trace) :
  py_getitem idea_summary (VStr "id") = Raise e ->
  Ahaj.sync_loop defines w config (before ++ idea_summary :: after)%list r t
  = match Ahaj.sync_loop defines w config before r t with
    | ((r', Ok _), t') => ((r', Raise e), t')
    | stopped => stopped
    end.
Proof.
  intros Hid. revert r t.
  induction before as [|idea before IH]; intros r t; cbn [app Ahaj.sync_loop].
  - rewrite Hid. reflexivity.
  - destruct (py_getitem idea (VStr "id")) as [id | e0 |]; try reflexivity.
    destruct (Ahaj.sync_one defines w config id r t) as [[r1 | e1 |] t1];
      try reflexivity.
    apply IH.
Qed.

Lemma sync_loop_stops_at_record_without_id_witness :
  Ahaj.sync_loop Ahaj.repaired_defines (listing_world records_missing_id)
    sample_config records_missing_id (Ahaj.MkResults 3 0 0 []) []
  = ((Ahaj.MkResults 3 0 1 [IdeaError (VInt 1) KeyError], Raise KeyError),
     [Throttle Aha;
      Sent (Get Aha (Url "https://your-company.aha.io/api/v1/ideas/1") [])]).
Proof.
  exact (eq_trans
           (sync_loop_stops_at_record_without_id Ahaj.repaired_defines
              (listing_world records_missing_id) sample_config
              [VDict [("id", VInt 1)]] [VDict [("id", VInt 3)]]
              (VDict [("name", VStr "Idea 2")]) KeyError
              (Ahaj.MkResults 3 0 0 []) [] eq_refl)
           eq_refl).
Defined.

(** ** [Ahaj.py]: the key of a created issue *)

Section WebLink.

Import Ahaj.

Variable defines : string -> bool.
Variable w : world.
Variable config : value.
Hypothesis Hfail : forall t r e, respond w t r = Failed e -> request_exception e = true.
Hypothesis Hlimit : defines "_rate_limit_jira" = true.


End WebLink.



(** ** [Ahaj.py]: the assignee *)

(** X20. An assignee whose email is a key of [assignee_mappings] is mapped
    by that table, and the target service is not asked: [map_assignee]
    returns the table's value and sends nothing, not even the pause before
    a request. *)
Theorem map_assignee_uses_table_first
        (defines : string -> bool) (w : world) (config idea assigned_to fm : value)
        (email : string) (table : dict) (account : value) (t : trace) :
  py_get idea "assigned_to" VNone = Ok assigned_to ->
  py_get assigned_to "email" VNone = Ok (VStr email) ->
  email <> "" ->
  Ahaj.field_mappings config = Ok fm ->
  py_get fm "assignee_mappings" (VDict []) = Ok (VDict table) ->
  dict_lookup email table = Some account ->
  Ahaj.map_assignee defines w config idea t = (Ok account, t).
Proof.
  intros Hassigned Hemail Hne Hfm Htable Haccount.
  assert (Htruthy : truthy assigned_to = true).
  { destruct assigned_to as [| | | | |a]; try discriminate Hemail.
    cbn in Hemail. unfold dict_get in Hemail.
    destruct a as [|kv a]; [discriminate Hemail | reflexivity]. }
  assert (Hmail : truthy (VStr email) = true).
  { cbn. destruct (String.eqb email "") eqn:E; [|reflexivity].
    apply String.eqb_eq in E. contradiction. }
  unfold Ahaj.map_assignee.
  unfold IO.bind at 1, lift at 1. rewrite Hassigned, Htruthy. cbn [negb].
  unfold IO.bind at 1, lift at 1. rewrite Hemail, Hmail. cbn [negb].
  unfold IO.bind at 1, lift at 1. rewrite Hfm.
  unfold IO.bind at 1, lift at 1. rewrite Htable.
  unfold IO.bind, lift. cbn [py_in py_getitem].
  unfold dict_contains, dict_getitem. rewrite Haccount. reflexivity.
Qed.

Lemma map_assignee_uses_table_first_witness :
  Ahaj.map_assignee Ahaj.class_defines silent_world sample_config assigned_idea []
  = (Ok (VStr "jira-user@company.com"), []).
Proof.
  refine (map_assignee_uses_table_first Ahaj.class_defines silent_world
            sample_config assigned_idea _ _ "aha-user@company.com" _ _ []
            eq_refl eq_refl _ eq_refl eq_refl eq_refl).
  discriminate.
Defined.

Section PayloadAssignee.

Import Ahaj.


End PayloadAssignee.


(** ** [Ahaj.py]: a record whose details cannot be fetched *)



(** ** [Ahaj.py]: the search for a user *)

(** X23. A search for a user that the target service refuses, or that
    finds nobody, is no error: [find_jira_user_by_email] returns [None]. *)
Theorem find_jira_user_by_email_finds_nobody
        (defines : string -> bool) (w : world) (config email base : value)
        (t : trace) :
  defines "_rate_limit_jira" = true ->
  Ahaj.config_at config "jira" "base_url" = Ok base ->
  (exists content users,
      respond w (t ++ [Throttle Jira])%list
              (Get Jira (Url (py_str base ++ "/rest/api/3/user/search"))
                   [("query", email)])
      = Reply content (Ok users) /\ truthy users = false)
  \/ respond w (t ++ [Throttle Jira])%list
             (Get Jira (Url (py_str base ++ "/rest/api/3/user/search"))
                  [("query", email)])
     = Failed RequestException ->
  fst (Ahaj.find_jira_user_by_email defines w config email t) = Ok VNone.
Proof.
  intros Hlimit Hbase Hanswer.
  unfold Ahaj.find_jira_user_by_email, Ahaj.call. rewrite Hlimit.
  unfold IO.bind at 1, Ahaj._rate_limit_jira, emit.
  unfold catch, IO.bind at 1, lift at 1. rewrite Hbase.
  unfold IO.bind at 1, send_json, IO.bind at 1, send_checked.
  destruct Hanswer as [(content & users & -> & Hnone) | ->].
  - cbn [snd]. unfold lift at 1. rewrite Hnone. reflexivity.
  - reflexivity.
Qed.

Lemma find_jira_user_by_email_finds_nobody_witness :
  fst (Ahaj.find_jira_user_by_email Ahaj.class_defines silent_world sample_config
         (VStr "ann@company.com") []) = Ok VNone.
Proof.
  refine (find_jira_user_by_email_finds_nobody Ahaj.class_defines silent_world
            sample_config (VStr "ann@company.com")
            (VStr "https://your-company.atlassian.net") [] eq_refl eq_refl _).
  right. reflexivity.
Defined.
